(** * BCEfficiencyFitter: the efficiency fitter of BAT, embedded and verified

    Source: [src/models/base/BCEfficiencyFitter.cxx].

    The fitter holds two aligned ROOT histograms (trials and successes), a
    fit function per Markov chain, and offers
    - [SetHistograms]: validation and installation of the two histograms,
    - [LogLikelihood]: the binomial log-likelihood summed over the bins,
    - [CalculatePValueFast]: the Metropolis walk over toy data sets,
    - [GetUncertainties]: the per-bin credible interval.

    Doubles are IEEE binary64 numbers (Rocq's primitive floats), so that
    comparisons with a NaN and divisions by zero behave as on the machine.
    [int] and [unsigned] are 32-bit and carried by [Z] with the conversions
    written out.  What the translation unit only calls (ROOT's histogram and
    function classes, BCMath, BCH1D, the random generator) is taken as an
    interface: a record of what the calls return. *)

From Stdlib Require Import ZArith List Bool Lia String.
From Stdlib Require Import Floats.
From stdpp Require Import base option list.
Import ListNotations.

Open Scope Z_scope.

(* ------------------------------------------------------------------ *)
(** ** C++ numbers *)

Module Cxx.

Definition INT_MIN : Z := -2147483648.
Definition INT_MAX : Z := 2147483647.
Definition UINT_MOD : Z := 4294967296.

(** The integer part of a finite binary64 number, rounding toward zero. *)
Definition truncate (x : spec_float) : option Z :=
  match x with
  | S754_zero _ => Some 0
  | S754_finite s m e =>
      let mag := if 0 <=? e then Z.shiftl (Zpos m) e
                 else Z.shiftr (Zpos m) (- e) in
      Some (if s then - mag else mag)
  | S754_infinity _ | S754_nan => None
  end.

(** [int(d)]: truncation toward zero.  The conversion is undefined in C++
    when the truncated value does not fit an [int] (and for infinities and
    NaN); the model returns what the x86-64 conversion instruction
    yields there, [INT_MIN]. *)
Definition int_of_double (d : float) : Z :=
  match truncate (Prim2SF d) with
  | Some z => if (INT_MIN <=? z) && (z <=? INT_MAX) then z else INT_MIN
  | None => INT_MIN
  end.

(** [double(n)] for an [int] or [unsigned] [n]: exact. *)
Definition double_of_int (n : Z) : float :=
  if n <? 0 then (- of_uint63 (Uint63.of_Z (- n)))%float
  else of_uint63 (Uint63.of_Z n).

(** [int] to [unsigned] (storing into a [std::vector<unsigned>]) and back
    (reading it into an [int]): both modulo 2^32. *)
Definition unsigned_of_int (k : Z) : Z := k mod UINT_MOD.
Definition int_of_unsigned (u : Z) : Z :=
  if u <=? INT_MAX then u else u - UINT_MOD.

(** [std::numeric_limits<double>::epsilon()], 2^-52. *)
Definition epsilon : float := 0x1p-52%float.

End Cxx.

(* ------------------------------------------------------------------ *)
(** ** The ROOT and BAT objects the fitter works on *)

(** A [TH1D] as seen through the accessors the fitter calls.  Bin 0 is the
    underflow bin, bins [1..GetNbinsX] are the bins of the axis, bin
    [GetNbinsX + 1] is the overflow bin.  ROOT keeps the number of bins
    positive and the loops of the fitter only pass bin numbers from 0 on, so
    both are natural numbers. *)
Record TH1D : Type := mkTH1D {
  GetNbinsX : nat;
  GetBinContent : nat -> float;
  GetBinLowEdge : nat -> float;
  GetBinUpEdge : nat -> float;
  GetXmin : float;
  GetXmax : float
}.

(** A [TF1]: the formula, ROOT's numerical integral of it, and the
    parameters last set with [SetParameters]. *)
Record TF1 : Type := mkTF1 {
  formula : list float -> float -> float;
  integrator : list float -> float -> float -> float;
  parameters : list float
}.

Definition SetParameters (f : TF1) (params : list float) : TF1 :=
  mkTF1 (formula f) (integrator f) params.
Definition Eval (f : TF1) (x : float) : float := formula f (parameters f) x.
Definition Integral (f : TF1) (a b : float) : float :=
  integrator f (parameters f) a b.

(** [fRandom]: a generator is the sequence of numbers it will deliver and
    the position reached in it. *)
Record TRandom3 : Type := mkTRandom3 {
  draws : nat -> float;
  position : nat
}.

Definition Rndm (r : TRandom3) : float * TRandom3 :=
  (draws r (position r), mkTRandom3 (draws r) (S (position r))).

(** A [BCDataSet]: its data points and the bounds set per coordinate. *)
Record BCDataSet : Type := mkBCDataSet {
  points : list (list float);
  bounds : list (Z * (float * float))
}.

Definition BCDataPoint (dim : nat) : list float := replicate dim 0%float.
Definition AddDataPoint (d : BCDataSet) (p : list float) : BCDataSet :=
  mkBCDataSet (points d ++ [p]) (bounds d).
Definition SetBounds (d : BCDataSet) (index : Z) (lo hi : float) : BCDataSet :=
  mkBCDataSet (points d) (bounds d ++ [(index, (lo, hi))]).

Inductive DataPointType : Type :=
  | kDataPointRMS
  | kDataPointSmallestInterval
  | kDataPointCentralInterval
  | kDataPointOther (value : Z).

(** One interval of a [BCH1D::BCH1DSmallestInterval]. *)
Record BCH1DInterval : Type := mkInterval {
  interval_xmin : float;
  interval_xmax : float
}.

(** What BCMath and the C library compute for the fitter. *)
Class BCMath : Type := {
  LogApproxBinomial : Z -> Z -> float -> float;
  ApproxBinomial : Z -> Z -> float -> float;
  CorrectPValue : float -> Z -> Z -> float;
  log : float -> float
}.

(** What ROOT and BCH1D read off the discretized posterior, a histogram of
    1000 bins on [0,1] given by its bin contents. *)
Class PosteriorStats : Type := {
  GetMean : list float -> float;
  GetRMS : list float -> float;
  GetQuantiles : list float -> list float -> list float;
  GetSmallestIntervals : list float -> float -> list BCH1DInterval
}.

(* ------------------------------------------------------------------ *)
(** ** The fitter *)

Record BCEfficiencyFitter : Type := mkFitter {
  (* inherited from BCFitter and below *)
  fFitFunction : list (option TF1);
  fMCMCCurrentChain : Z;
  GetNParameters : Z;
  fDataSet : option BCDataSet;
  fFitFunctionIndices : option (Z * Z);
  fRandom : TRandom3;
  (* members of BCEfficiencyFitter *)
  fHistogram1 : option TH1D;
  fHistogram2 : option TH1D;
  fHistogramBinomial : option (list float);
  fDataPointType : DataPointType;
  fFlagIntegration : bool
}.

(** The state the base-class constructor leaves, as far as the fitter
    reads it. *)
Record BCFitter : Type := mkBase {
  base_fFitFunction : list (option TF1);
  base_fMCMCCurrentChain : Z;
  base_GetNParameters : Z;
  base_fDataSet : option BCDataSet;
  base_fFitFunctionIndices : option (Z * Z);
  base_fRandom : TRandom3
}.

(** [BCEfficiencyFitter::BCEfficiencyFitter(std::string name)]. *)
Definition BCEfficiencyFitter_new (base : BCFitter) : BCEfficiencyFitter :=
  mkFitter (base_fFitFunction base) (base_fMCMCCurrentChain base)
    (base_GetNParameters base) (base_fDataSet base)
    (base_fFitFunctionIndices base) (base_fRandom base)
    None None None kDataPointSmallestInterval false.

Definition with_histograms (self : BCEfficiencyFitter) (h1 h2 : TH1D)
    (d : BCDataSet) (indices : Z * Z) : BCEfficiencyFitter :=
  mkFitter (fFitFunction self) (fMCMCCurrentChain self) (GetNParameters self)
    (Some d) (Some indices) (fRandom self)
    (Some h1) (Some h2) (fHistogramBinomial self) (fDataPointType self)
    (fFlagIntegration self).

Definition with_fFlagIntegration (self : BCEfficiencyFitter) (flag : bool)
    : BCEfficiencyFitter :=
  mkFitter (fFitFunction self) (fMCMCCurrentChain self) (GetNParameters self)
    (fDataSet self) (fFitFunctionIndices self) (fRandom self)
    (fHistogram1 self) (fHistogram2 self) (fHistogramBinomial self)
    (fDataPointType self) flag.

Definition with_fFitFunction (self : BCEfficiencyFitter)
    (fs : list (option TF1)) : BCEfficiencyFitter :=
  mkFitter fs (fMCMCCurrentChain self) (GetNParameters self)
    (fDataSet self) (fFitFunctionIndices self) (fRandom self)
    (fHistogram1 self) (fHistogram2 self) (fHistogramBinomial self)
    (fDataPointType self) (fFlagIntegration self).

Definition with_fHistogramBinomial (self : BCEfficiencyFitter)
    (h : list float) : BCEfficiencyFitter :=
  mkFitter (fFitFunction self) (fMCMCCurrentChain self) (GetNParameters self)
    (fDataSet self) (fFitFunctionIndices self) (fRandom self)
    (fHistogram1 self) (fHistogram2 self) (Some h)
    (fDataPointType self) (fFlagIntegration self).

(** The values a loop [for (int i = first; i < first + count; ++i)] gives
    its counter. *)
Definition counter_values (first count : nat) : list nat := seq first count.

(* ------------------------------------------------------------------ *)
(** ** SetHistograms *)

Module Msg.
Definition not_created : string :=
  "BCEfficiencyFitter::SetHistograms : TH1D not created."%string.
Definition bin_count : string :=
  "BCEfficiencyFitter::SetHistograms : Histograms do not have the same number of bins."%string.
Definition bin_edges : string :=
  "BCEfficiencyFitter::SetHistograms : Histogram 1 and 2 don't have same bins."%string.
Definition fewer_entries : string :=
  "BCEfficiencyFitter::SetHistograms : Histogram 1 has fewer entries than histogram 2."%string.
Definition pvalue_no_histogram : string :=
  "BCEfficiencyFitter::CalculatePValueFast : Histogram not defined."%string.
Definition invalid_type : string :=
  "BCEfficiencyFitter::GetUncertainties - invalid DataPointType specified."%string.
End Msg.

(** The loop over the bins of [SetHistograms]: the message of the first
    check that fails, if one does. *)
Fixpoint check_bins (hist1 hist2 : TH1D) (bins : list nat) : option string :=
  match bins with
  | [] => None
  | i :: rest =>
      if (Cxx.epsilon <? abs (GetBinLowEdge hist1 i - GetBinLowEdge hist2 i))%float
      then Some Msg.bin_edges
      else if (GetBinContent hist1 i <? GetBinContent hist2 i)%float
      then Some Msg.fewer_entries
      else check_bins hist1 hist2 rest
  end.

(** The data set [SetHistograms] creates: one empty two-dimensional point
    per bin, bounds on x from the axis and on y the unit interval. *)
Definition new_data_set (hist1 : TH1D) : BCDataSet :=
  let filled :=
    fold_left (fun d _ => AddDataPoint d (BCDataPoint 2))
      (counter_values 0 (GetNbinsX hist1)) (mkBCDataSet [] []) in
  SetBounds (SetBounds filled 0 (GetXmin hist1) (GetXmax hist1)) 1 0%float 1%float.

(** [SetHistograms(hist1, hist2)]: the value returned, the fitter after the
    call, and what was passed to [BCLog::OutError]. *)
Definition SetHistograms (self : BCEfficiencyFitter) (hist1 hist2 : option TH1D)
    : bool * BCEfficiencyFitter * list string :=
  match hist1, hist2 with
  | Some h1, Some h2 =>
      if negb (GetNbinsX h1 =? GetNbinsX h2)%nat then (false, self, [Msg.bin_count])
      else
        match check_bins h1 h2 (counter_values 1 (GetNbinsX h1)) with
        | Some msg => (false, self, [msg])
        | None =>
            if (Cxx.epsilon <? abs (GetXmax h1 - GetXmax h2))%float
            then (false, self, [Msg.bin_edges])
            else (true, with_histograms self h1 h2 (new_data_set h1) (0, 1), [])
        end
  | _, _ => (false, self, [Msg.not_created])
  end.

(** [BCEfficiencyFitter(TH1D* hist1, TH1D* hist2, TF1* func, std::string name)];
    [base] is the state [BCFitter(func, name)] leaves. *)
Definition BCEfficiencyFitter_new_with (base : BCFitter)
    (hist1 hist2 : option TH1D) : BCEfficiencyFitter :=
  let '(_, self, _) := SetHistograms (BCEfficiencyFitter_new base) hist1 hist2 in
  with_fFlagIntegration self false.

(* ------------------------------------------------------------------ *)
(** ** LogLikelihood *)

(** A loop body that may fail, run over the values of the counter. *)
Fixpoint for_each {A S : Type} (body : A -> S -> option S) (l : list A) (s : S)
    : option S :=
  match l with
  | [] => Some s
  | a :: rest =>
      match body a s with
      | Some s' => for_each body rest s'
      | None => None
      end
  end.

Section Likelihood.
Context {M : BCMath}.

(** The body of the loop over the bins of [LogLikelihood]. *)
Definition loglikelihood_bin (flag : bool) (f : TF1) (hist1 hist2 : TH1D)
    (loglikelihood : float) (ibin : nat) : float :=
  let n := Cxx.int_of_double (GetBinContent hist1 ibin) in
  let k := Cxx.int_of_double (GetBinContent hist2 ibin) in
  let xmin := GetBinLowEdge hist1 ibin in
  let xmax := GetBinUpEdge hist1 ibin in
  let eff :=
    if flag then (Integral f xmin xmax / (xmax - xmin))%float
    else ((Eval f xmax + Eval f xmin) / 2)%float in
  (loglikelihood + LogApproxBinomial n k eff)%float.

(** [LogLikelihood(params)]: the value returned and the fitter after the
    call (the function of the current chain keeps the parameters).  [None]
    when the chain index is past the end of [fFitFunction], which C++ leaves
    undefined. *)
Definition LogLikelihood (self : BCEfficiencyFitter) (params : list float)
    : option (float * BCEfficiencyFitter) :=
  let c := Z.to_nat (if 0 <=? fMCMCCurrentChain self
                     then fMCMCCurrentChain self else 0) in
  match fFitFunction self !! c with
  | None => None
  | Some fc =>
      match fc, fHistogram1 self, fHistogram2 self with
      | Some f, Some h1, Some h2 =>
          let f' := SetParameters f params in
          let self' :=
            with_fFitFunction self (<[c := Some f']> (fFitFunction self)) in
          let nbins := GetNbinsX h1 in
          Some (fold_left (loglikelihood_bin (fFlagIntegration self) f' h1 h2)
                  (counter_values 1 nbins) 0%float,
                self')
      | _, _, _ => Some ((- nan)%float, self)
      end
  end.

End Likelihood.

(* ------------------------------------------------------------------ *)
(** ** CalculatePValueFast *)

(** The variables of the walk: the toy data set [histogram], the running
    [logp], [counter_pvalue], the generator, and the toy data sets handed to
    the callback, oldest first. *)
Record ToyWalk : Type := mkWalk {
  histogram : list Z;
  logp : float;
  counter_pvalue : Z;
  generator : TRandom3;
  observed : list (list float * list Z)
}.

(** What a call of [CalculatePValueFast] leaves: [false] returned and the
    two outputs untouched, or [true] returned with the two outputs set; the
    generator of [final] is then [fRandom] after the call. *)
Inductive PValueResult : Type :=
  | PValueFailure (msg : string)
  | PValueSuccess (pvalue pvalueCorrected : float) (final : ToyWalk).

Section PValue.
Context {M : BCMath}.

(** The body of the loop that defines the starting distribution.  [None]
    when [fFitFunction[0]] is not a function, where C++ leaves the call
    undefined. *)
Definition start_bin (hist1 hist2 : TH1D) (f0 : option (option TF1))
    (ibin : nat) (acc : list Z * list float * float)
    : option (list Z * list float * float) :=
  let '(histogram, expectation, logp) := acc in
  match f0 with
  | Some (Some f) =>
      let xmin := GetBinLowEdge hist1 (ibin + 1) in
      let xmax := GetBinUpEdge hist1 (ibin + 1) in
      let yexp := Integral f xmin xmax in
      let n := Cxx.int_of_double (GetBinContent hist1 ibin) in
      let k := Cxx.int_of_double (GetBinContent hist2 ibin) in
      Some (<[ibin := Cxx.unsigned_of_int k]> histogram,
            <[ibin := (Cxx.double_of_int n * yexp)%float]> expectation,
            (logp + LogApproxBinomial n k yexp)%float)
  | _ => None
  end.

Definition start_distribution (self : BCEfficiencyFitter) (hist1 hist2 : TH1D)
    : option (list Z * list float * float) :=
  let nbins := GetNbinsX hist1 in
  for_each (start_bin hist1 hist2 (fFitFunction self !! 0%nat))
    (counter_values 0 nbins)
    (replicate nbins 0, replicate nbins 0%float, 0%float).

(** The body of the loop over the bins, one Metropolis step for bin [ibin].
    [None] when [at] is given an index past the end of a vector, where it
    throws. *)
Definition bin_step (hist1 : TH1D) (expectation : list float) (ibin : nat)
    (w : ToyWalk) : option ToyWalk :=
  let n := Cxx.int_of_double (GetBinContent hist1 ibin) in
  match histogram w !! ibin with
  | None => None
  | Some u =>
      let k := Cxx.int_of_unsigned u in
      match (if 0 <? n
             then match expectation !! ibin with
                  | Some e => Some (e / Cxx.double_of_int n)%float
                  | None => None
                  end
             else Some 0%float) with
      | None => None
      | Some yexp =>
          let (u1, g1) := Rndm (generator w) in
          let ptest := (u1 - 0.5)%float in
          if negb ((0 <? yexp)%float || (yexp <? 1.0)%float)
          then Some (mkWalk (histogram w) (logp w) (counter_pvalue w) g1 (observed w))
          else if (0 <? ptest)%float && (k <? n)
          then
            let r := ((Cxx.double_of_int n - Cxx.double_of_int k)
                      / (Cxx.double_of_int k + 1) * yexp / (1 - yexp))%float in
            let (u2, g2) := Rndm g1 in
            if (u2 <? r)%float
            then Some (mkWalk (<[ibin := Cxx.unsigned_of_int (k + 1)]> (histogram w))
                         (logp w + log r)%float (counter_pvalue w) g2 (observed w))
            else Some (mkWalk (histogram w) (logp w) (counter_pvalue w) g2 (observed w))
          else if (ptest <=? 0)%float && (0 <? k)
          then
            let r := (Cxx.double_of_int k
                      / (Cxx.double_of_int n - (Cxx.double_of_int k - 1))
                      * (1 - yexp) / yexp)%float in
            let (u2, g2) := Rndm g1 in
            if (u2 <? r)%float
            then Some (mkWalk (<[ibin := Cxx.unsigned_of_int (k - 1)]> (histogram w))
                         (logp w + log r)%float (counter_pvalue w) g2 (observed w))
            else Some (mkWalk (histogram w) (logp w) (counter_pvalue w) g2 (observed w))
          else Some (mkWalk (histogram w) (logp w) (counter_pvalue w) g1 (observed w))
      end
  end.

(** An integer brought into the range of [int].  [counter_pvalue++] is
    undefined in C++ once the counter holds [INT_MAX]; the model takes what
    the x86-64 addition leaves there, the wrapped value [INT_MIN]. *)
Definition wrap_int (z : Z) : Z :=
  (z - Cxx.INT_MIN) mod Cxx.UINT_MOD + Cxx.INT_MIN.

(** Modelled from the spec: the callback interface [ToyDataInterface], which
    is declared in the header of the class and not in this translation
    unit.  The specification makes the callback an optional function of the
    expectation vector and the toy data set, invoked once per iteration, a
    pure observation hook: a call adds its two arguments to what the
    callback has seen and touches nothing of the walk. *)
Definition invoke_callback (callback : bool) (expectation : list float)
    (histogram : list Z) (seen : list (list float * list Z))
    : list (list float * list Z) :=
  if callback then seen ++ [(expectation, histogram)] else seen.

(** One iteration: every bin in turn, then the callback, then the counter,
    an [int]. *)
Definition iteration (hist1 : TH1D) (expectation : list float) (nbins : nat)
    (callback : bool) (logp_start : float) (iiter : nat) (w : ToyWalk)
    : option ToyWalk :=
  match for_each (bin_step hist1 expectation) (counter_values 0 nbins) w with
  | None => None
  | Some w1 =>
      let seen :=
        invoke_callback callback expectation (histogram w1) (observed w1) in
      let counter :=
        if (logp w1 <? logp_start)%float then wrap_int (counter_pvalue w1 + 1)
        else counter_pvalue w1 in
      Some (mkWalk (histogram w1) (logp w1) counter (generator w1) seen)
  end.

(** [CalculatePValueFast(par, callback, pvalue, pvalueCorrected, nIterations)].
    [callback] tells whether a callback was passed; [nIterations] is the
    value of the [unsigned] argument; [par] is not used by the source. *)
Definition CalculatePValueFast (self : BCEfficiencyFitter) (callback : bool)
    (nIterations : nat) : option PValueResult :=
  match fHistogram1 self, fHistogram2 self with
  | Some h1, Some h2 =>
      let nbins := GetNbinsX h1 in
      match start_distribution self h1 h2 with
      | None => None
      | Some (histogram0, expectation, logp0) =>
          let logp_start := logp0 in
          match for_each (iteration h1 expectation nbins callback logp_start)
                  (counter_values 0 nIterations)
                  (mkWalk histogram0 logp0 0 (fRandom self) []) with
          | None => None
          | Some w =>
              let pvalue := (Cxx.double_of_int (counter_pvalue w)
                             / Cxx.double_of_int (Z.of_nat nIterations))%float in
              let pvalueCorrected :=
                CorrectPValue pvalue (GetNParameters self) (Z.of_nat nbins) in
              Some (PValueSuccess pvalue pvalueCorrected w)
          end
      end
  | _, _ => Some (PValueFailure Msg.pvalue_no_histogram)
  end.

End PValue.

(* ------------------------------------------------------------------ *)
(** ** GetUncertainties *)

(** The three outputs of [GetUncertainties]. *)
Record Estimate : Type := mkEstimate {
  xexp : float;
  xmin : float;
  xmax : float
}.

Section Uncertainties.
Context {M : BCMath} {P : PosteriorStats}.

(** [fHistogramBinomial->GetBinCenter(i)] for the 1000 equal bins on [0,1]. *)
Definition GetBinCenter (i : nat) : float :=
  let binwidth := ((1 - 0) / 1000)%float in
  (0 + (Cxx.double_of_int (Z.of_nat i) - 1) * binwidth + 0.5 * binwidth)%float.

(** [fHistogramBinomial] after the filling loop and the normalization. *)
Definition binomial_histogram (n k : Z) : list float :=
  let filled :=
    map (fun i => ApproxBinomial n k (GetBinCenter i)) (counter_values 1 1000) in
  let integral := fold_left PrimFloat.add filled 0%float in
  map (fun content => ((1 / integral) * content)%float) filled.

(** [GetUncertainties(n, k, p, xexp, xmin, xmax)]: the value returned, the
    three outputs, the fitter after the call and what was passed to
    [BCLog::OutError]. *)
Definition GetUncertainties (self : BCEfficiencyFitter) (n k : Z) (p : float)
    : bool * Estimate * BCEfficiencyFitter * list string :=
  if n =? 0 then (false, mkEstimate 0 0 0, self, [])
  else
    let hist := binomial_histogram n k in
    let self' := with_fHistogramBinomial self hist in
    match fDataPointType self with
    | kDataPointRMS =>
        let mean := GetMean hist in
        let rms := GetRMS hist in
        (true, mkEstimate mean (mean - rms)%float (mean + rms)%float, self', [])
    | kDataPointSmallestInterval =>
        let central := (Cxx.double_of_int k / Cxx.double_of_int n)%float in
        match GetSmallestIntervals hist p with
        | [] => (true, mkEstimate 0 0 0, self', [])
        | front :: _ =>
            (true, mkEstimate central (interval_xmin front) (interval_xmax front),
             self', [])
        end
    | kDataPointCentralInterval =>
        let probSum := [((1 - p) / 2)%float; 0.5%float; ((1 + p) / 2)%float] in
        let q := GetQuantiles hist probSum in
        (true, mkEstimate (nth 1 q 0%float) (nth 0 q 0%float) (nth 2 q 0%float),
         self', [])
    | kDataPointOther _ =>
        (true, mkEstimate 0 0 0, self', [Msg.invalid_type])
    end.

End Uncertainties.

(* ------------------------------------------------------------------ *)
(** ** FitFunction *)

(** [FitFunction(x, params)]: the value returned and the fitter after the
    call.  [None] where C++ leaves the call undefined: no function for the
    chain, or no coordinate in [x]. *)
Definition FitFunction (self : BCEfficiencyFitter) (x params : list float)
    : option (float * BCEfficiencyFitter) :=
  let c := Z.to_nat (if 0 <=? fMCMCCurrentChain self
                     then fMCMCCurrentChain self else 0) in
  match fFitFunction self !! c with
  | Some (Some f) =>
      let f' := SetParameters f params in
      match x with
      | x0 :: _ =>
          Some (Eval f' x0,
                with_fFitFunction self (<[c := Some f']> (fFitFunction self)))
      | [] => None
      end
  | _ => None
  end.

(* ------------------------------------------------------------------ *)
(** ** DrawFit: the efficiency graph *)

(** A point of the [TGraphAsymmErrors] with its four errors. *)
Record GraphPoint : Type := mkPoint {
  point_x : float;
  point_y : float;
  exlow : float;
  exhigh : float;
  eylow : float;
  eyhigh : float
}.

Module DrawMsg.
Definition no_histogram : string :=
  "BCEfficiencyFitter::DrawFit : Histogram(s) not defined."%string.
Definition no_function : string :=
  "BCEfficiencyFitter::DrawFit : Fit function not defined."%string.
End DrawMsg.

(** The confidence level [0.68] of [DrawFit], as the nearest double. *)
Definition level_68 : float := 0x1.5c28f5c28f5c3p-1%float.

Section Draw.
Context {M : BCMath} {P : PosteriorStats}.

(** The body of the loop that sets the points: the graph so far, the fitter
    and the errors reported so far, after the point of bin [i] was set.  The
    value [GetUncertainties] returns is not looked at. *)
Definition set_point (hist1 hist2 : TH1D) (center : nat -> float)
    (acc : list GraphPoint * BCEfficiencyFitter * list string) (i : nat)
    : list GraphPoint * BCEfficiencyFitter * list string :=
  let '(graph, self, reported) := acc in
  let '(_, estimate, self', errors) :=
    GetUncertainties self
      (Cxx.int_of_double (GetBinContent hist1 i))
      (Cxx.int_of_double (GetBinContent hist2 i)) level_68 in
  (graph ++ [mkPoint (center i) (xexp estimate) 0 0
               (xexp estimate - xmin estimate)%float
               (xmax estimate - xexp estimate)%float],
   self', reported ++ errors).

(** The part of [DrawFit] that builds the graph [histRatio], before anything
    is drawn: the graph if the two guards let the call through, the fitter
    after the loop and the errors reported.  [center] is
    [fHistogram1->GetBinCenter]. *)
Definition DrawFit_graph (self : BCEfficiencyFitter) (center : nat -> float)
    : option (list GraphPoint) * BCEfficiencyFitter * list string :=
  match fHistogram1 self, fHistogram2 self with
  | Some h1, Some h2 =>
      match fFitFunction self with
      | [] => (None, self, [DrawMsg.no_function])
      | _ :: _ =>
          let '(graph, self', reported) :=
            fold_left (set_point h1 h2 center)
              (counter_values 1 (GetNbinsX h1)) ([], self, []) in
          (Some graph, self', reported)
      end
  | _, _ => (None, self, [DrawMsg.no_histogram])
  end.

End Draw.

(* ------------------------------------------------------------------ *)
(** ** What the specification asks of SetHistograms *)

(** Two bin edges differ by more than the double-precision epsilon. *)
Definition edges_differ (a b : float) : Prop :=
  (Cxx.epsilon <? abs (a - b))%float = true.

(** One of the tests [SetHistograms] makes fires: a histogram is absent,
    the bin counts differ, the test [> epsilon] holds of a pair of lower
    edges or of the last upper edges, or the test [<] holds of the contents
    of a bin. *)
Definition fails_a_check (hist1 hist2 : option TH1D) : Prop :=
  match hist1, hist2 with
  | Some h1, Some h2 =>
      GetNbinsX h1 <> GetNbinsX h2
      \/ (exists i : nat, (1 <= i <= GetNbinsX h1)%nat
            /\ (edges_differ (GetBinLowEdge h1 i) (GetBinLowEdge h2 i)
                \/ (GetBinContent h1 i <? GetBinContent h2 i)%float = true))
      \/ edges_differ (GetXmax h1) (GetXmax h2)
  | _, _ => True
  end.

(** Two bin edges are equal within the double-precision epsilon. *)
Definition within_epsilon (a b : float) : Prop :=
  (abs (a - b) <=? Cxx.epsilon)%float = true.

(** [count1 >= count2]. *)
Definition at_least (count1 count2 : float) : Prop :=
  (count2 <=? count1)%float = true.

(** Bin [i] of the two histograms is as asked: the lower edges are equal
    within epsilon and the first histogram holds at least what the second
    holds. *)
Definition bin_is_valid (h1 h2 : TH1D) (i : nat) : Prop :=
  within_epsilon (GetBinLowEdge h1 i) (GetBinLowEdge h2 i)
  /\ at_least (GetBinContent h1 i) (GetBinContent h2 i).

(** What is asked of the two histograms: both are present, they have the
    same number of bins, every bin is as asked, and the last upper edges
    are equal within epsilon. *)
Definition valid_histograms (hist1 hist2 : option TH1D) : Prop :=
  match hist1, hist2 with
  | Some h1, Some h2 =>
      GetNbinsX h1 = GetNbinsX h2
      /\ (forall i : nat, (1 <= i <= GetNbinsX h1)%nat -> bin_is_valid h1 h2 i)
      /\ within_epsilon (GetXmax h1) (GetXmax h2)
  | _, _ => False
  end.

(** The two histograms violate what is asked of them. *)
Definition violation (hist1 hist2 : option TH1D) : Prop :=
  ~ valid_histograms hist1 hist2.

(** The edges and contents [SetHistograms] compares are numbers: no content
    of a bin and no difference of two edges is a NaN. *)
Definition all_numbers (hist1 hist2 : option TH1D) : Prop :=
  match hist1, hist2 with
  | Some h1, Some h2 =>
      (forall i : nat, (1 <= i <= GetNbinsX h1)%nat ->
         is_nan (GetBinLowEdge h1 i - GetBinLowEdge h2 i) = false
         /\ is_nan (GetBinContent h1 i) = false
         /\ is_nan (GetBinContent h2 i) = false)
      /\ is_nan (GetXmax h1 - GetXmax h2) = false
  | _, _ => True
  end.

(** The message [msg] names the first thing asked of the two histograms
    that they violate, in the order: both present, same number of bins, the
    bins from the first on (edges before contents), last upper edges. *)
Definition explains (msg : string) (hist1 hist2 : option TH1D) : Prop :=
  match hist1, hist2 with
  | Some h1, Some h2 =>
      (msg = Msg.bin_count /\ GetNbinsX h1 <> GetNbinsX h2)
      \/ (GetNbinsX h1 = GetNbinsX h2
          /\ exists i : nat, (1 <= i <= GetNbinsX h1)%nat
               /\ (forall j : nat, (1 <= j < i)%nat -> bin_is_valid h1 h2 j)
               /\ ((msg = Msg.bin_edges
                    /\ ~ within_epsilon (GetBinLowEdge h1 i)
                                        (GetBinLowEdge h2 i))
                   \/ (msg = Msg.fewer_entries
                       /\ within_epsilon (GetBinLowEdge h1 i)
                                         (GetBinLowEdge h2 i)
                       /\ ~ at_least (GetBinContent h1 i)
                                     (GetBinContent h2 i))))
      \/ (GetNbinsX h1 = GetNbinsX h2
          /\ (forall i : nat, (1 <= i <= GetNbinsX h1)%nat ->
                bin_is_valid h1 h2 i)
          /\ msg = Msg.bin_edges
          /\ ~ within_epsilon (GetXmax h1) (GetXmax h2))
  | _, _ => msg = Msg.not_created
  end.

(** The messages [SetHistograms] reports a failed check with. *)
Definition SetHistograms_errors : list string :=
  [Msg.not_created; Msg.bin_count; Msg.bin_edges; Msg.fewer_entries].

(* ------------------------------------------------------------------ *)
(** ** What the specification asks of LogLikelihood *)

(** Interpolation mode: the mean of the function at the two bin edges. *)
Definition interpolated_efficiency (f : TF1) (params : list float)
    (xmin xmax : float) : float :=
  ((formula f params xmin + formula f params xmax) / 2)%float.

(** The sum of [term] over [count] bins from bin [first] on, added to [acc]
    in bin order. *)
Fixpoint sum_from (acc : float) (term : nat -> float) (first count : nat)
    : float :=
  match count with
  | O => acc
  | S count' => sum_from (acc + term first)%float term (S first) count'
  end.

(** The sum of [term] over the bins [1..nbins]. *)
Definition sum_over_bins (term : nat -> float) (nbins : nat) : float :=
  sum_from 0%float term 1 nbins.

(** The chain whose function [LogLikelihood] and [FitFunction] use. *)
Definition current_chain (self : BCEfficiencyFitter) : nat :=
  Z.to_nat (Z.max 0 (fMCMCCurrentChain self)).

(* ------------------------------------------------------------------ *)
(** ** The Metropolis step, case by case *)

(** The factor of probability of a step up from [k] to [k + 1] and of a
    step down from [k] to [k - 1], for [n] trials and efficiency [p]; the
    source writes the denominator [n - k + 1] as [n - (k - 1)]. *)
Definition ratio_up (n k : Z) (p : float) : float :=
  ((Cxx.double_of_int n - Cxx.double_of_int k)
   / (Cxx.double_of_int k + 1) * p / (1 - p))%float.
Definition ratio_down (n k : Z) (p : float) : float :=
  (Cxx.double_of_int k
   / (Cxx.double_of_int n - (Cxx.double_of_int k - 1)) * (1 - p) / p)%float.

(** The walk after a bin was left as it is, the generator being [g]. *)
Definition unmoved (w : ToyWalk) (g : TRandom3) : ToyWalk :=
  mkWalk (histogram w) (logp w) (counter_pvalue w) g (observed w).

(** The walk after the toy count of bin [ibin] moved to [k'] with factor
    [r]. *)
Definition moved {M : BCMath} (w : ToyWalk) (ibin : nat) (k' : Z) (r : float)
    (g : TRandom3) : ToyWalk :=
  mkWalk (<[ibin := Cxx.unsigned_of_int k']> (histogram w))
    (logp w + log r)%float (counter_pvalue w) g (observed w).

(** The generator after [count] more draws. *)
Definition advanced (g : TRandom3) (count : nat) : TRandom3 :=
  mkTRandom3 (draws g) (count + position g).

(* ------------------------------------------------------------------ *)
(** ** What the walk keeps *)

(** Every toy count lies between 0 and the number of trials the walk reads
    for its bin. *)
Definition within_trials (hist1 : TH1D) (histogram : list Z) : Prop :=
  forall (ibin : nat) (u : Z), histogram !! ibin = Some u ->
    0 <= u <= Cxx.int_of_double (GetBinContent hist1 ibin).

(* ------------------------------------------------------------------ *)
(** ** Concrete inputs *)

Module Examples.

(** A histogram of equal bins of width [width] starting at [first_edge],
    given by the contents of its cells, underflow first. *)
Definition histogram_of (first_edge width : float) (nbins : nat)
    (cells : list float) : TH1D :=
  let edge (i : nat) :=
    (first_edge + (Cxx.double_of_int (Z.of_nat i) - 1) * width)%float in
  mkTH1D nbins (fun i => nth i cells 0%float) edge (fun i => edge (S i))
    first_edge (edge (S nbins)).

(** A constant function [f(x) = c] with its exact integral. *)
Definition constant_function (c : float) : TF1 :=
  mkTF1 (fun _ _ => c) (fun _ a b => (c * (b - a))%float) [].

(** A generator that delivers the numbers of [l] and then 0.5 for ever. *)
Definition generator_of (l : list float) : TRandom3 :=
  mkTRandom3 (fun i => nth i l 0.5%float) 0.

Definition fitter_of (f : option TF1) (hist1 hist2 : option TH1D)
    (g : TRandom3) : BCEfficiencyFitter :=
  mkFitter (match f with Some _ => [f] | None => [] end) (-1) 1 None None g
    hist1 hist2 None kDataPointSmallestInterval false.

(** Stand-ins for BCMath and the posterior statistics, for running the
    definitions; no statement below depends on their values. *)
Definition plain_math : BCMath :=
  Build_BCMath (fun _ _ p => p) (fun _ _ p => p) (fun p _ _ => p) (fun x => x).
Definition no_interval_stats : PosteriorStats :=
  Build_PosteriorStats (fun _ => 0%float) (fun _ => 0%float)
    (fun _ _ => []) (fun _ _ => []).

(** One bin on [0,2]; total histogram with 2 entries in the underflow cell
    and 10 in the bin, passed histogram with 1 and 5. *)
Definition total_2_10 : TH1D := histogram_of 0 2 1 [2; 10; 0]%float.
Definition passed_1_5 : TH1D := histogram_of 0 2 1 [1; 5; 0]%float.

(** The same bin with 10 and 5 entries in the underflow cell as well. *)
Definition total_10_10 : TH1D := histogram_of 0 2 1 [10; 10; 0]%float.
Definition passed_5_5 : TH1D := histogram_of 0 2 1 [5; 5; 0]%float.

(** The same bin with empty underflow in the total histogram and 3 entries
    in the underflow of the passed histogram. *)
Definition total_0_10 : TH1D := histogram_of 0 2 1 [0; 10; 0]%float.
Definition passed_3_5 : TH1D := histogram_of 0 2 1 [3; 5; 0]%float.

(** A second histogram with a shifted axis. *)
Definition shifted_1_5 : TH1D := histogram_of 1 2 1 [1; 5; 0]%float.

(** A fitter with 10 trials and 5 successes wherever the walk may read
    them, for a model that predicts the efficiency 0 everywhere; the first
    draw proposes a step down. *)
Definition zero_efficiency_fitter : BCEfficiencyFitter :=
  fitter_of (Some (constant_function 0)) (Some total_10_10) (Some passed_5_5)
    (generator_of [0.25; 0.75]%float).

(** The same counts for the model [f(x) = 0.5], whose average over the bin
    [0,2] is 0.5 and whose integral over it is 1. *)
Definition half_efficiency_fitter : BCEfficiencyFitter :=
  fitter_of (Some (constant_function 0.5)) (Some total_10_10) (Some passed_5_5)
    (generator_of []).

(** 10 trials and 5 successes in the bin, 2 and 1 in the underflow cells;
    the draws propose a step up and take it, and then propose a step up
    twice more. *)
Definition underflow_fitter (f : TF1) : BCEfficiencyFitter :=
  fitter_of (Some f) (Some total_2_10) (Some passed_1_5)
    (generator_of [0.75; 0; 0.75; 0.75]%float).

(** 10 trials and 5 successes in the bin, an empty underflow cell in the
    total histogram and 3 entries in the underflow cell of the passed one. *)
Definition stray_underflow_fitter : BCEfficiencyFitter :=
  fitter_of (Some (constant_function 0.25)) (Some total_0_10) (Some passed_3_5)
    (generator_of [0.25; 0; 0.75; 0]%float).

(** A walk at toy count 5 in a bin of 10 trials, about to draw 0.75 and
    then 0.5. *)
Definition walk_at_5 : ToyWalk :=
  mkWalk [5] 0%float 0 (generator_of [0.75; 0.5]%float) [].

End Examples.

(* ------------------------------------------------------------------ *)
(** ** The points of the graph *)

(** The point [DrawFit] sets for a bin with [n] trials and [k] successes at
    [x], on a fitter with the interval policy of [self]. *)
Definition point_of {M : BCMath} {P : PosteriorStats}
    (self : BCEfficiencyFitter) (x : float) (n k : Z) : GraphPoint :=
  let estimate := snd (fst (fst (GetUncertainties self n k level_68))) in
  mkPoint x (xexp estimate) 0 0
    (xexp estimate - xmin estimate)%float
    (xmax estimate - xexp estimate)%float.

(* ------------------------------------------------------------------ *)
(** ** More concrete inputs *)

Module Cases.

(** A fitter without histograms and without a fit function. *)
Definition bare_fitter : BCEfficiencyFitter :=
  Examples.fitter_of None None None (Examples.generator_of []).

(** One bin on [0,2] whose cells all hold a NaN. *)
Definition total_nan : TH1D :=
  Examples.histogram_of 0 2 1 [nan; nan; nan]%float.

(** The linear function [f(x) = a x] for the parameters [[a]] (and 0 without
    a parameter), with its exact integral. *)
Definition linear_function : TF1 :=
  mkTF1 (fun params x => (nth 0 params 0 * x)%float)
    (fun params a b => (nth 0 params 0 * (b * b - a * a) / 2)%float) [].

(** A fitter with the linear function for its only chain, 10 trials and 5
    successes in its only bin. *)
Definition linear_fitter : BCEfficiencyFitter :=
  Examples.fitter_of (Some linear_function) (Some Examples.total_10_10)
    (Some Examples.passed_5_5) (Examples.generator_of [0.75; 0.5]%float).

(** One bin on [0,2] without entries. *)
Definition empty_histogram : TH1D :=
  Examples.histogram_of 0 2 1 [0; 0; 0]%float.

(** A fitter whose only bin has no trials. *)
Definition empty_fitter : BCEfficiencyFitter :=
  Examples.fitter_of (Some (Examples.constant_function 0.5))
    (Some empty_histogram) (Some empty_histogram)
    (Examples.generator_of [0.75; 0.25]%float).

(** A fitter with both histograms and no fit function. *)
Definition functionless_fitter : BCEfficiencyFitter :=
  Examples.fitter_of None (Some Examples.total_10_10)
    (Some Examples.passed_5_5) (Examples.generator_of []).

(** A walk at toy count 0 in a bin without trials. *)
Definition walk_at_0 : ToyWalk :=
  mkWalk [0] 0%float 0 (Examples.generator_of [0.25]%float) [].

(** The two outputs and the final walk of a call that returned [true]. *)
Definition pvalue_of (r : option PValueResult) : float :=
  match r with Some (PValueSuccess p _ _) => p | _ => nan end.
Definition corrected_of (r : option PValueResult) : float :=
  match r with Some (PValueSuccess _ c _) => c | _ => nan end.
Definition final_of (r : option PValueResult) : ToyWalk :=
  match r with
  | Some (PValueSuccess _ _ w) => w
  | _ => mkWalk [] 0%float 0 (Examples.generator_of []) []
  end.

(** Three iterations with a callback on the fitter whose underflow cells
    hold 2 and 1 entries, for the model [f(x) = 0.25]. *)
Definition underflow_run : option PValueResult :=
  @CalculatePValueFast Examples.plain_math
    (Examples.underflow_fitter (Examples.constant_function 0.25)) true 3.

(** Two iterations on 10 trials and 5 successes for the model
    [f(x) = 0.25], whose draws propose a step up and take it, and then
    propose a step down and take it. *)
Definition up_down_fitter : BCEfficiencyFitter :=
  Examples.fitter_of (Some (Examples.constant_function 0.25))
    (Some Examples.total_10_10) (Some Examples.passed_5_5)
    (Examples.generator_of [0.75; 0; 0.25; 0]%float).
Definition up_down_run : option PValueResult :=
  @CalculatePValueFast Examples.plain_math up_down_fitter false 2.

End Cases.

(* ------------------------------------------------------------------ *)
(** * Properties *)

(** ** Facts on binary64 numbers *)

Lemma SFadd_comm (prec emax : Z) (x y : spec_float) :
  SFadd prec emax x y = SFadd prec emax y x.
Proof.
  destruct x as [sx|sx| |sx mx ex], y as [sy|sy| |sy my ey];
    try destruct sx; try destruct sy; try reflexivity;
    cbn [SFadd]; rewrite (Z.min_comm ey ex), Z.add_comm; reflexivity.
Qed.

Lemma double_add_comm (x y : float) : (x + y)%float = (y + x)%float.
Proof.
  rewrite <- (SF2Prim_Prim2SF (x + y)), <- (SF2Prim_Prim2SF (y + x)).
  rewrite !add_spec. unfold SF64add. now rewrite SFadd_comm.
Qed.

Lemma SFcompare_refl (x : spec_float) :
  x <> S754_nan -> SFcompare x x = Some Eq.
Proof.
  destruct x as [s|s| |s m e]; try destruct s; try easy; intros _;
    cbn [SFcompare]; rewrite Z.compare_refl, Pos.compare_cont_refl; reflexivity.
Qed.

Lemma is_nan_spec (y : float) :
  is_nan y = match Prim2SF y with S754_nan => true | _ => false end.
Proof.
  unfold is_nan. rewrite FloatAxioms.eqb_spec. unfold SFeqb.
  destruct (Prim2SF y) as [s|s| |s m e] eqn:E; try reflexivity;
    rewrite SFcompare_refl; easy.
Qed.

(** The test [!(yexp > 0. or yexp < 1.0)] of the walk holds of a NaN and of
    nothing else. *)
Lemma at_limit_test_is_nan (y : float) :
  negb ((0 <? y)%float || (y <? 1.0)%float) = is_nan y.
Proof.
  rewrite is_nan_spec, !FloatAxioms.ltb_spec.
  destruct (Prim2SF y) as [s|s| |s m e]; try destruct s; reflexivity.
Qed.

Lemma leb_zero_not_ltb (x : float) :
  (x <=? 0)%float = true -> (0 <? x)%float = false.
Proof.
  rewrite FloatAxioms.leb_spec, FloatAxioms.ltb_spec.
  destruct (Prim2SF x) as [s|s| |s m e]; try destruct s; vm_compute; congruence.
Qed.

Lemma SFcompare_antisym (x y : spec_float) :
  SFcompare y x = option_map CompOpp (SFcompare x y).
Proof.
  destruct x as [sx|sx| |sx mx ex], y as [sy|sy| |sy my ey];
    try destruct sx; try destruct sy; try reflexivity;
    cbn [SFcompare option_map];
    rewrite (Z.compare_antisym ex ey);
    assert (H : Pos.compare_cont Eq my mx = CompOpp (Pos.compare_cont Eq mx my))
      by (rewrite Pos.compare_cont_antisym; reflexivity);
    rewrite H; destruct (ex ?= ey); cbn [CompOpp]; try reflexivity;
    destruct (Pos.compare_cont Eq mx my); reflexivity.
Qed.

Lemma SFcompare_defined (x y : spec_float) :
  x <> S754_nan -> y <> S754_nan -> SFcompare x y <> None.
Proof.
  destruct x as [sx|sx| |sx mx ex], y as [sy|sy| |sy my ey]; simpl; congruence.
Qed.

(** Of two numbers, one is less than the other exactly when the other is
    not less than or equal to it. *)
Lemma ltb_is_not_leb (x y : float) :
  is_nan x = false -> is_nan y = false ->
  (x <? y)%float = negb (y <=? x)%float.
Proof.
  rewrite !is_nan_spec, FloatAxioms.ltb_spec, FloatAxioms.leb_spec.
  unfold SFltb, SFleb. rewrite (SFcompare_antisym (Prim2SF x) (Prim2SF y)).
  intros Hx Hy.
  destruct (SFcompare (Prim2SF x) (Prim2SF y)) as [[| |]|] eqn:E;
    try reflexivity.
  exfalso. apply (SFcompare_defined (Prim2SF x) (Prim2SF y)); try exact E;
    intros H; rewrite H in *; discriminate.
Qed.

Lemma is_nan_abs (x : float) : is_nan (abs x) = is_nan x.
Proof.
  rewrite !is_nan_spec, abs_spec. destruct (Prim2SF x); reflexivity.
Qed.

(** ** Facts on the conversions *)

Lemma int_of_double_range (d : float) :
  Cxx.INT_MIN <= Cxx.int_of_double d <= Cxx.INT_MAX.
Proof.
  unfold Cxx.int_of_double, Cxx.INT_MIN, Cxx.INT_MAX.
  destruct (Cxx.truncate (Prim2SF d)) as [z|]; [|lia].
  destruct (_ && _) eqn:E; lia.
Qed.

Lemma unsigned_of_int_small (k : Z) :
  0 <= k <= Cxx.INT_MAX -> Cxx.unsigned_of_int k = k.
Proof.
  unfold Cxx.unsigned_of_int, Cxx.UINT_MOD, Cxx.INT_MAX. intros H.
  apply Z.mod_small. lia.
Qed.

Lemma int_of_unsigned_small (u : Z) :
  0 <= u <= Cxx.INT_MAX -> Cxx.int_of_unsigned u = u.
Proof.
  unfold Cxx.int_of_unsigned. intros H.
  destruct (u <=? Cxx.INT_MAX) eqn:E; [reflexivity | lia].
Qed.

(* ------------------------------------------------------------------ *)
(** ** GetUncertainties *)

Section UncertaintiesFacts.
Context {M : BCMath} {P : PosteriorStats}.

(** C7.  Called with [n = 0], [GetUncertainties] returns [false] and sets
    the central value and both ends of the interval to 0, whatever [k], the
    confidence level and the interval policy; the fitter is left as it was
    and nothing is reported. *)
Theorem GetUncertainties_no_trials (self : BCEfficiencyFitter) (k : Z)
    (p : float) :
  GetUncertainties self 0 k p = (false, mkEstimate 0 0 0, self, []).
Proof. reflexivity. Qed.

(** C5.  Under the smallest-interval policy with [n > 0], when
    [GetSmallestIntervals] finds no interval at the requested level, the
    three outputs are 0 and the call returns [true]. *)
Theorem GetUncertainties_no_interval (self : BCEfficiencyFitter) (n k : Z)
    (p : float) :
  0 < n ->
  fDataPointType self = kDataPointSmallestInterval ->
  GetSmallestIntervals (binomial_histogram n k) p = [] ->
  GetUncertainties self n k p =
    (true, mkEstimate 0 0 0,
     with_fHistogramBinomial self (binomial_histogram n k), []).
Proof.
  intros Hn Hpolicy Hnone. unfold GetUncertainties.
  destruct (n =? 0) eqn:E; [lia|].
  rewrite Hpolicy, Hnone. reflexivity.
Qed.

(** Otherwise the interval is the first one found, around [k/n]. *)
Lemma GetUncertainties_first_interval (self : BCEfficiencyFitter) (n k : Z)
    (p : float) (front : BCH1DInterval) (others : list BCH1DInterval) :
  n <> 0 ->
  fDataPointType self = kDataPointSmallestInterval ->
  GetSmallestIntervals (binomial_histogram n k) p = front :: others ->
  GetUncertainties self n k p =
    (true,
     mkEstimate (Cxx.double_of_int k / Cxx.double_of_int n)%float
       (interval_xmin front) (interval_xmax front),
     with_fHistogramBinomial self (binomial_histogram n k), []).
Proof.
  intros Hn Hpolicy Hfront. unfold GetUncertainties.
  destruct (n =? 0) eqn:E; [lia|].
  rewrite Hpolicy, Hfront. reflexivity.
Qed.

End UncertaintiesFacts.

Lemma GetUncertainties_no_interval_witness :
  @GetUncertainties Examples.plain_math Examples.no_interval_stats
    (Examples.fitter_of None None None (Examples.generator_of [])) 10 5
    0.5%float
  = (true, mkEstimate 0 0 0,
     with_fHistogramBinomial
       (Examples.fitter_of None None None (Examples.generator_of []))
       (@binomial_histogram Examples.plain_math 10 5), []).
Proof.
  apply (@GetUncertainties_no_interval Examples.plain_math
           Examples.no_interval_stats); [lia | reflexivity | reflexivity].
Defined.

(* ------------------------------------------------------------------ *)
(** ** SetHistograms *)

Lemma check_bins_passes (hist1 hist2 : TH1D) (bins : list nat) :
  check_bins hist1 hist2 bins = None <->
  forall i : nat, In i bins ->
    ~ edges_differ (GetBinLowEdge hist1 i) (GetBinLowEdge hist2 i)
    /\ (GetBinContent hist1 i <? GetBinContent hist2 i)%float <> true.
Proof.
  unfold edges_differ. induction bins as [|b bins IH]; simpl.
  - split; [intros _ i [] | reflexivity].
  - destruct (Cxx.epsilon <? _)%float eqn:Eedge.
    + split; [discriminate|]. intros H.
      destruct (H b (or_introl eq_refl)) as [Hb _]. congruence.
    + destruct (GetBinContent hist1 b <? _)%float eqn:Ecount.
      * split; [discriminate|]. intros H.
        destruct (H b (or_introl eq_refl)) as [_ Hb]. congruence.
      * rewrite IH. split.
        -- intros H i [<-|Hi]; [split; congruence | auto].
        -- intros H i Hi. apply H. now right.
Qed.

Lemma check_bins_message (hist1 hist2 : TH1D) (bins : list nat) (msg : string) :
  check_bins hist1 hist2 bins = Some msg ->
  msg = Msg.bin_edges \/ msg = Msg.fewer_entries.
Proof.
  induction bins as [|b bins IH]; simpl; [discriminate|].
  destruct (Cxx.epsilon <? _)%float; [intros [= <-]; now left|].
  destruct (GetBinContent hist1 b <? _)%float; [intros [= <-]; now right|].
  exact IH.
Qed.

Lemma check_bins_fails (hist1 hist2 : TH1D) (bins : list nat) (msg : string) :
  check_bins hist1 hist2 bins = Some msg ->
  exists i : nat, In i bins
    /\ (edges_differ (GetBinLowEdge hist1 i) (GetBinLowEdge hist2 i)
        \/ (GetBinContent hist1 i <? GetBinContent hist2 i)%float = true).
Proof.
  unfold edges_differ. induction bins as [|b bins IH]; simpl; [discriminate|].
  destruct (Cxx.epsilon <? _)%float eqn:Eedge.
  { intros _. exists b. split; [now left | now left]. }
  destruct (GetBinContent hist1 b <? _)%float eqn:Ecount.
  { intros _. exists b. split; [now left | now right]. }
  intros H. destruct (IH H) as (i & Hi & Hbad). exists i. split; [now right | exact Hbad].
Qed.

Lemma In_counter_values (first count i : nat) :
  In i (counter_values first count) <-> (first <= i < first + count)%nat.
Proof. unfold counter_values. apply in_seq. Qed.

(** Whenever one of its tests fires, [SetHistograms] returns [false],
    reports one of its four error messages and leaves the fitter as it
    was. *)
Lemma SetHistograms_rejects_failed_check (self : BCEfficiencyFitter)
    (hist1 hist2 : option TH1D) :
  fails_a_check hist1 hist2 ->
  exists msg : string,
    In msg SetHistograms_errors
    /\ SetHistograms self hist1 hist2 = (false, self, [msg]).
Proof.
  unfold SetHistograms, SetHistograms_errors.
  destruct hist1 as [h1|], hist2 as [h2|]; simpl;
    try (intros _; exists Msg.not_created; split; [now left | reflexivity]).
  intros Hv.
  destruct (GetNbinsX h1 =? GetNbinsX h2)%nat eqn:Ebins; simpl.
  2:{ exists Msg.bin_count. split; [right; now left | reflexivity]. }
  apply Nat.eqb_eq in Ebins.
  destruct (check_bins h1 h2 (counter_values 1 (GetNbinsX h1))) as [msg|] eqn:Ec.
  { exists msg. split; [|reflexivity].
    destruct (check_bins_message _ _ _ _ Ec) as [-> | ->];
      [right; right; now left | right; right; right; now left]. }
  rewrite check_bins_passes in Ec.
  destruct Hv as [Hv | [(i & Hi & Hv) | Hv]].
  - contradiction.
  - destruct (Ec i) as [Hedge Hcount].
    { apply In_counter_values. lia. }
    destruct Hv; contradiction.
  - unfold edges_differ in Hv. rewrite Hv.
    exists Msg.bin_edges. split; [right; right; now left | reflexivity].
Qed.

(** The loop stops at the first bin one of whose two tests fires, with the
    message of that test. *)
Lemma check_bins_first (h1 h2 : TH1D) (count first : nat) (msg : string) :
  check_bins h1 h2 (seq first count) = Some msg ->
  exists i : nat, (first <= i < first + count)%nat
    /\ (forall j : nat, (first <= j < i)%nat ->
          ~ edges_differ (GetBinLowEdge h1 j) (GetBinLowEdge h2 j)
          /\ (GetBinContent h1 j <? GetBinContent h2 j)%float <> true)
    /\ ((msg = Msg.bin_edges
         /\ edges_differ (GetBinLowEdge h1 i) (GetBinLowEdge h2 i))
        \/ (msg = Msg.fewer_entries
            /\ ~ edges_differ (GetBinLowEdge h1 i) (GetBinLowEdge h2 i)
            /\ (GetBinContent h1 i <? GetBinContent h2 i)%float = true)).
Proof.
  unfold edges_differ. revert first.
  induction count as [|count IH]; intros first; simpl; [discriminate|].
  destruct (Cxx.epsilon <? _)%float eqn:Eedge.
  { intros H. injection H as <-. exists first.
    split; [lia|]. split; [intros j Hj; lia | left; auto]. }
  destruct (GetBinContent h1 first <? _)%float eqn:Ecount.
  { intros H. injection H as <-. exists first.
    split; [lia|]. split; [intros j Hj; lia|].
    right. split; [reflexivity|]. split; [congruence | exact Ecount]. }
  intros H. destruct (IH (S first) H) as (i & Hi & Hbefore & Hat).
  exists i. split; [lia|]. split; [|exact Hat].
  intros j Hj. destruct (Nat.eq_dec j first) as [-> | Hne].
  - split; congruence.
  - apply Hbefore. lia.
Qed.

(** On numbers the two tests of the loop are the negations of what is asked
    of a bin. *)
Lemma edge_test_agrees (a b : float) :
  is_nan (a - b) = false -> (edges_differ a b <-> ~ within_epsilon a b).
Proof.
  intros Hnan. unfold edges_differ, within_epsilon.
  rewrite (ltb_is_not_leb Cxx.epsilon (abs (a - b)));
    [|reflexivity | now rewrite is_nan_abs].
  destruct (abs (a - b) <=? Cxx.epsilon)%float; simpl; split;
    try congruence; intros H; exfalso; apply H; reflexivity.
Qed.

Lemma count_test_agrees (count1 count2 : float) :
  is_nan count1 = false -> is_nan count2 = false ->
  ((count1 <? count2)%float = true <-> ~ at_least count1 count2).
Proof.
  intros H1 H2. unfold at_least. rewrite (ltb_is_not_leb _ _ H1 H2).
  destruct (count2 <=? count1)%float; simpl; split;
    try congruence; intros H; exfalso; apply H; reflexivity.
Qed.

Lemma not_not_true (b : bool) : ~ b <> true -> b = true.
Proof.
  destruct b; [reflexivity|]. intros H. exfalso. apply H. discriminate.
Qed.

Lemma edge_test_passes (a b : float) :
  is_nan (a - b) = false -> ~ edges_differ a b -> within_epsilon a b.
Proof.
  intros Hnan Hedge. rewrite (edge_test_agrees _ _ Hnan) in Hedge.
  apply not_not_true. exact Hedge.
Qed.

Lemma tests_pass_valid (h1 h2 : TH1D) (i : nat) :
  is_nan (GetBinLowEdge h1 i - GetBinLowEdge h2 i) = false ->
  is_nan (GetBinContent h1 i) = false ->
  is_nan (GetBinContent h2 i) = false ->
  ~ edges_differ (GetBinLowEdge h1 i) (GetBinLowEdge h2 i) ->
  (GetBinContent h1 i <? GetBinContent h2 i)%float <> true ->
  bin_is_valid h1 h2 i.
Proof.
  intros He H1 H2 Hedge Hcount. split.
  - now apply edge_test_passes.
  - rewrite (count_test_agrees _ _ H1 H2) in Hcount.
    apply not_not_true. exact Hcount.
Qed.

(** C8 (amended).  For histograms whose compared edges and contents are
    numbers: when the two histograms violate what is asked of them (both
    present, the same number of bins, lower edges and last upper edges equal
    within epsilon, and in every bin at least as many entries in the first
    as in the second), [SetHistograms] returns [false], reports the message
    of the first violated condition and leaves the fitter, with its
    histogram pointers and its data set, exactly as it was. *)
Theorem SetHistograms_rejects (self : BCEfficiencyFitter)
    (hist1 hist2 : option TH1D) :
  all_numbers hist1 hist2 ->
  violation hist1 hist2 ->
  exists msg : string,
    SetHistograms self hist1 hist2 = (false, self, [msg])
    /\ explains msg hist1 hist2.
Proof.
  unfold violation, valid_histograms, all_numbers, explains, SetHistograms.
  destruct hist1 as [h1|], hist2 as [h2|];
    try (intros _ _; exists Msg.not_created; split; reflexivity).
  intros [Hbins Hlast] Hv.
  destruct (GetNbinsX h1 =? GetNbinsX h2)%nat eqn:Ebins; simpl.
  2:{ exists Msg.bin_count. split; [reflexivity|]. left.
      split; [reflexivity | now apply Nat.eqb_neq]. }
  apply Nat.eqb_eq in Ebins.
  destruct (check_bins h1 h2 (counter_values 1 (GetNbinsX h1))) as [msg|] eqn:Ec.
  - exists msg. split; [reflexivity|]. right. left. split; [exact Ebins|].
    destruct (check_bins_first _ _ _ _ _ Ec) as (i & Hi & Hbefore & Hat).
    exists i. split; [lia|]. split.
    + intros j Hj. destruct (Hbins j) as (He & H1 & H2); [lia|].
      destruct (Hbefore j) as [Hedge Hcount]; [lia|].
      now apply tests_pass_valid.
    + destruct (Hbins i) as (He & H1 & H2); [lia|].
      destruct Hat as [[-> Hedge] | (-> & Hedge & Hcount)].
      * left. split; [reflexivity|]. now apply edge_test_agrees.
      * right. split; [reflexivity|]. split.
        -- now apply edge_test_passes.
        -- now apply count_test_agrees.
  - rewrite check_bins_passes in Ec.
    assert (Hvalid : forall i : nat, (1 <= i <= GetNbinsX h1)%nat ->
                       bin_is_valid h1 h2 i).
    { intros i Hi. destruct (Hbins i Hi) as (He & H1 & H2).
      destruct (Ec i) as [Hedge Hcount]; [apply In_counter_values; lia|].
      now apply tests_pass_valid. }
    destruct (Cxx.epsilon <? abs (GetXmax h1 - GetXmax h2))%float eqn:Elast.
    + exists Msg.bin_edges. split; [reflexivity|]. right. right.
      split; [exact Ebins|]. split; [exact Hvalid|]. split; [reflexivity|].
      now apply edge_test_agrees.
    + exfalso. apply Hv. split; [exact Ebins|]. split; [exact Hvalid|].
      apply (edge_test_passes _ _ Hlast). unfold edges_differ. congruence.
Qed.

Lemma numbers_2_10_shifted :
  all_numbers (Some Examples.total_2_10) (Some Examples.shifted_1_5).
Proof.
  split; [|reflexivity].
  intros i Hi. assert (i = 1%nat) as -> by (simpl in Hi; lia).
  repeat split; reflexivity.
Defined.

Lemma violation_2_10_shifted :
  violation (Some Examples.total_2_10) (Some Examples.shifted_1_5).
Proof.
  intros (_ & Hbins & _). destruct (Hbins 1%nat) as [Hedge _]; [simpl; lia|].
  vm_compute in Hedge. discriminate.
Defined.

Lemma SetHistograms_rejects_witness :
  exists msg : string,
    SetHistograms (Examples.fitter_of None None None (Examples.generator_of []))
      (Some Examples.total_2_10) (Some Examples.shifted_1_5)
    = (false, Examples.fitter_of None None None (Examples.generator_of []),
       [msg])
    /\ explains msg (Some Examples.total_2_10) (Some Examples.shifted_1_5).
Proof.
  exact (SetHistograms_rejects _ _ _ numbers_2_10_shifted
           violation_2_10_shifted).
Defined.

(** A NaN is not caught: a total histogram whose bin holds a NaN does not
    hold at least the 5 entries of the passed histogram, which violates what
    is asked, and [SetHistograms] accepts the pair. *)
Lemma SetHistograms_misses_nan :
  violation (Some Cases.total_nan) (Some Examples.passed_5_5)
  /\ fst (fst (SetHistograms Cases.bare_fitter (Some Cases.total_nan)
                 (Some Examples.passed_5_5))) = true.
Proof.
  split; [|reflexivity].
  intros (_ & Hbins & _). destruct (Hbins 1%nat) as [_ Hcount]; [simpl; lia|].
  vm_compute in Hcount. discriminate.
Qed.

(** When none of its tests fires [SetHistograms] installs the two
    histograms and a fresh data set, and returns [true]. *)
Lemma SetHistograms_accepts (self : BCEfficiencyFitter) (h1 h2 : TH1D) :
  ~ fails_a_check (Some h1) (Some h2) ->
  SetHistograms self (Some h1) (Some h2)
  = (true, with_histograms self h1 h2 (new_data_set h1) (0, 1), []).
Proof.
  unfold SetHistograms, fails_a_check. intros Hv.
  destruct (GetNbinsX h1 =? GetNbinsX h2)%nat eqn:Ebins; simpl.
  2:{ apply Nat.eqb_neq in Ebins. tauto. }
  destruct (check_bins h1 h2 (counter_values 1 (GetNbinsX h1))) as [msg|] eqn:Ec.
  { exfalso. apply Hv. right. left.
    destruct (check_bins_fails _ _ _ _ Ec) as (i & Hi & Hbad).
    exists i. split; [|exact Hbad].
    apply In_counter_values in Hi. lia. }
  destruct (Cxx.epsilon <? abs (GetXmax h1 - GetXmax h2))%float eqn:Elast;
    [|reflexivity].
  exfalso. apply Hv. right. right. exact Elast.
Qed.

(* ------------------------------------------------------------------ *)
(** ** LogLikelihood *)

(** Both constructors leave the fitter in interpolation mode. *)
Lemma constructors_interpolate (base : BCFitter) (hist1 hist2 : option TH1D) :
  fFlagIntegration (BCEfficiencyFitter_new base) = false
  /\ fFlagIntegration (BCEfficiencyFitter_new_with base hist1 hist2) = false.
Proof.
  split; [reflexivity|]. unfold BCEfficiencyFitter_new_with.
  destruct (SetHistograms _ _ _) as [[ok self] msgs]. reflexivity.
Qed.

(** [SetHistograms] does not touch the mode. *)
Lemma SetHistograms_keeps_mode (self : BCEfficiencyFitter)
    (hist1 hist2 : option TH1D) :
  fFlagIntegration (snd (fst (SetHistograms self hist1 hist2)))
  = fFlagIntegration self.
Proof.
  unfold SetHistograms. destruct hist1 as [h1|], hist2 as [h2|]; try reflexivity.
  destruct (negb _); [reflexivity|].
  destruct (check_bins _ _ _); [reflexivity|].
  destruct (Cxx.epsilon <? _)%float; reflexivity.
Qed.

Section LikelihoodFacts.
Context {M : BCMath}.

Lemma fold_left_sum_from (g : float -> nat -> float) (term : nat -> float)
    (count first : nat) (acc : float) :
  (forall (a : float) (i : nat), g a i = (a + term i)%float) ->
  fold_left g (seq first count) acc = sum_from acc term first count.
Proof.
  intros Hg. revert first acc.
  induction count as [|count IH]; intros first acc; simpl; [reflexivity|].
  rewrite Hg. apply IH.
Qed.

(** C9.  In interpolation mode, the mode both constructors set
    ([constructors_interpolate]), with a function for the current chain and
    both histograms present, [LogLikelihood(params)] returns the sum over
    the bins [1..nbins] of [LogApproxBinomial(n, k, eff)], where [n] and [k]
    are the contents of the bin in the two histograms and [eff] is
    [(f(xmin, params) + f(xmax, params)) / 2] at the bin edges. *)
Theorem LogLikelihood_interpolation (self : BCEfficiencyFitter)
    (params : list float) (f : TF1) (h1 h2 : TH1D) :
  fFlagIntegration self = false ->
  fFitFunction self !! current_chain self = Some (Some f) ->
  fHistogram1 self = Some h1 ->
  fHistogram2 self = Some h2 ->
  exists self' : BCEfficiencyFitter,
    LogLikelihood self params =
      Some (sum_over_bins
              (fun ibin =>
                 LogApproxBinomial
                   (Cxx.int_of_double (GetBinContent h1 ibin))
                   (Cxx.int_of_double (GetBinContent h2 ibin))
                   (interpolated_efficiency f params
                      (GetBinLowEdge h1 ibin) (GetBinUpEdge h1 ibin)))
              (GetNbinsX h1),
            self').
Proof.
  intros Hmode Hf Hh1 Hh2. unfold LogLikelihood.
  assert (Hc : Z.to_nat (if 0 <=? fMCMCCurrentChain self
                         then fMCMCCurrentChain self else 0)
               = current_chain self).
  { unfold current_chain. destruct (0 <=? _) eqn:E; f_equal; lia. }
  rewrite Hc, Hf, Hh1, Hh2, Hmode. eexists. f_equal. f_equal.
  unfold sum_over_bins, counter_values. apply fold_left_sum_from.
  intros a i. unfold loglikelihood_bin, interpolated_efficiency, Eval. simpl.
  now rewrite (double_add_comm (formula f params (GetBinUpEdge h1 i))).
Qed.

End LikelihoodFacts.

Lemma LogLikelihood_interpolation_witness :
  exists self' : BCEfficiencyFitter,
    @LogLikelihood Examples.plain_math
      (Examples.fitter_of (Some (Examples.constant_function 0.5))
         (Some Examples.total_10_10) (Some Examples.passed_5_5)
         (Examples.generator_of [])) []
    = Some (0.5%float, self').
Proof.
  destruct (@LogLikelihood_interpolation Examples.plain_math
              (Examples.fitter_of (Some (Examples.constant_function 0.5))
                 (Some Examples.total_10_10) (Some Examples.passed_5_5)
                 (Examples.generator_of [])) []
              (Examples.constant_function 0.5)
              Examples.total_10_10 Examples.passed_5_5
              eq_refl eq_refl eq_refl eq_refl) as [self' H].
  exists self'. exact H.
Defined.

(* ------------------------------------------------------------------ *)
(** ** CalculatePValueFast: one Metropolis step *)

Section StepFacts.
Context {M : BCMath}.

(** C4.  For a bin with [n > 0] trials, toy count [k] and efficiency
    [p = yexp / n] that is a number: a step up is proposed when the first
    draw exceeds 0.5 and [k < n], with factor
    [(n - k) / (k + 1) * p / (1 - p)]; a step down is proposed when the
    first draw does not exceed 0.5 and [k > 0], with factor
    [k / (n - (k - 1)) * (1 - p) / p]; a proposed step is taken exactly when
    a fresh draw is less than the factor [r], and then [log r] is added to
    the running log-probability; in every other case the toy count and the
    log-probability stay as they are. *)
Theorem bin_step_metropolis (hist1 : TH1D) (expectation : list float)
    (ibin : nat) (w : ToyWalk) (u : Z) (yexp : float) (n k : Z)
    (p ptest fresh : float) :
  histogram w !! ibin = Some u ->
  expectation !! ibin = Some yexp ->
  n = Cxx.int_of_double (GetBinContent hist1 ibin) ->
  k = Cxx.int_of_unsigned u ->
  0 < n ->
  p = (yexp / Cxx.double_of_int n)%float ->
  is_nan p = false ->
  ptest = (draws (generator w) (position (generator w)) - 0.5)%float ->
  fresh = draws (generator w) (S (position (generator w))) ->
  ((0 <? ptest)%float = true -> k < n ->
     bin_step hist1 expectation ibin w =
       Some (if (fresh <? ratio_up n k p)%float
             then moved w ibin (k + 1) (ratio_up n k p) (advanced (generator w) 2)
             else unmoved w (advanced (generator w) 2)))
  /\ ((ptest <=? 0)%float = true -> 0 < k ->
     bin_step hist1 expectation ibin w =
       Some (if (fresh <? ratio_down n k p)%float
             then moved w ibin (k - 1) (ratio_down n k p) (advanced (generator w) 2)
             else unmoved w (advanced (generator w) 2)))
  /\ ((0 <? ptest)%float && (k <? n) = false ->
      (ptest <=? 0)%float && (0 <? k) = false ->
     bin_step hist1 expectation ibin w = Some (unmoved w (advanced (generator w) 1))).
Proof.
  intros Hu He Hn Hk Hpos Hp Hnan Hptest Hfresh.
  unfold bin_step. rewrite Hu, He, <- Hn, <- Hk.
  destruct (0 <? n) eqn:En; [|lia]. rewrite <- Hp.
  unfold Rndm. rewrite <- Hptest. cbn [draws position]. rewrite <- Hfresh.
  rewrite at_limit_test_is_nan, Hnan.
  fold (ratio_up n k p). fold (ratio_down n k p).
  repeat split.
  - intros Hup Hlt. rewrite Hup.
    destruct (k <? n) eqn:Ek; [|lia]. cbn [andb].
    destruct (fresh <? ratio_up n k p)%float; reflexivity.
  - intros Hdown Hgt. rewrite (leb_zero_not_ltb _ Hdown), Hdown.
    destruct (0 <? k) eqn:Ek; [|lia]. cbn [andb].
    destruct (fresh <? ratio_down n k p)%float; reflexivity.
  - intros Hno_up Hno_down. rewrite Hno_up, Hno_down. reflexivity.
Qed.

(** A step leaves the toy count of every other bin alone, changes the toy
    count of its own bin by at most one, and draws once or twice. *)
Lemma bin_step_shape (hist1 : TH1D) (expectation : list float) (ibin : nat)
    (w w' : ToyWalk) :
  bin_step hist1 expectation ibin w = Some w' ->
  exists (u : Z) (g : TRandom3),
    histogram w !! ibin = Some u
    /\ counter_pvalue w' = counter_pvalue w
    /\ observed w' = observed w
    /\ generator w' = g
    /\ (w' = unmoved w g
        \/ (Cxx.int_of_unsigned u
              < Cxx.int_of_double (GetBinContent hist1 ibin)
            /\ histogram w'
               = <[ibin := Cxx.unsigned_of_int (Cxx.int_of_unsigned u + 1)]>
                   (histogram w))
        \/ (0 < Cxx.int_of_unsigned u
            /\ histogram w'
               = <[ibin := Cxx.unsigned_of_int (Cxx.int_of_unsigned u - 1)]>
                   (histogram w))).
Proof.
  unfold bin_step. destruct (histogram w !! ibin) as [u|]; [|discriminate].
  intros H. exists u.
  destruct (if 0 <? _ then _ else _) as [yexp|]; [|discriminate].
  unfold Rndm in H. cbn [draws position] in H.
  destruct (negb _).
  { injection H as H; subst w'. eexists. repeat split. now left. }
  destruct (_ && (_ <? Cxx.int_of_double _)) eqn:Eup.
  { apply andb_prop in Eup as [_ Hlt]. apply Z.ltb_lt in Hlt.
    match type of H with (if ?c then _ else _) = _ => destruct c end;
      injection H as H; subst w'; eexists; repeat split;
      [right; left; split; [exact Hlt | reflexivity] | now left]. }
  destruct (_ && (0 <? _)) eqn:Edown.
  { apply andb_prop in Edown as [_ Hgt]. apply Z.ltb_lt in Hgt.
    match type of H with (if ?c then _ else _) = _ => destruct c end;
      injection H as H; subst w'; eexists; repeat split;
      [right; right; split; [exact Hgt | reflexivity] | now left]. }
  injection H as H; subst w'. eexists. repeat split. now left.
Qed.

End StepFacts.

Lemma bin_step_metropolis_witness :
  @bin_step Examples.plain_math Examples.total_10_10 [5%float] 0
    Examples.walk_at_5
  = Some (@moved Examples.plain_math Examples.walk_at_5 0 6
            (ratio_up 10 5 0.5) (advanced (generator Examples.walk_at_5) 2)).
Proof.
  destruct (@bin_step_metropolis Examples.plain_math Examples.total_10_10
              [5%float] 0%nat Examples.walk_at_5 5 5%float 10 5 0.5%float
              0.25%float 0.5%float
              eq_refl eq_refl eq_refl eq_refl ltac:(lia) eq_refl eq_refl
              eq_refl eq_refl) as [Hup _].
  exact (Hup eq_refl ltac:(lia)).
Defined.

(* ------------------------------------------------------------------ *)
(** ** CalculatePValueFast: the loops *)

Lemma for_each_invariant {A S : Type} (body : A -> S -> option S)
    (Inv : S -> Prop) (Ok : A -> Prop) (l : list A) (s : S) :
  (forall (a : A) (s0 : S), Ok a -> Inv s0 ->
     exists s1 : S, body a s0 = Some s1 /\ Inv s1) ->
  (forall a : A, In a l -> Ok a) ->
  Inv s ->
  exists s' : S, for_each body l s = Some s' /\ Inv s'.
Proof.
  intros Hbody. revert s.
  induction l as [|a l IH]; intros s Hl Hs; simpl.
  - exists s. split; [reflexivity | exact Hs].
  - destruct (Hbody a s (Hl a (or_introl eq_refl)) Hs) as (s1 & -> & Hs1).
    apply IH; [|exact Hs1]. intros b Hb. apply Hl. now right.
Qed.

Section WalkFacts.
Context {M : BCMath}.

(** With a function at index 0 the starting distribution is defined, and
    both vectors have one entry per bin. *)
Lemma start_distribution_defined (self : BCEfficiencyFitter) (h1 h2 : TH1D)
    (f : TF1) :
  fFitFunction self !! 0%nat = Some (Some f) ->
  exists (histogram0 : list Z) (expectation : list float) (logp0 : float),
    start_distribution self h1 h2 = Some (histogram0, expectation, logp0)
    /\ length histogram0 = GetNbinsX h1
    /\ length expectation = GetNbinsX h1.
Proof.
  intros Hf. unfold start_distribution. rewrite Hf.
  destruct (for_each_invariant (start_bin h1 h2 (Some (Some f)))
              (fun acc => length (fst (fst acc)) = GetNbinsX h1
                          /\ length (snd (fst acc)) = GetNbinsX h1)
              (fun _ => True)
              (counter_values 0 (GetNbinsX h1))
              (replicate (GetNbinsX h1) 0, replicate (GetNbinsX h1) 0%float,
               0%float))
    as ([[histogram0 expectation] logp0] & Hrun & Hh & He).
  - intros ibin [[h e] l] _ [Hh He]. simpl in Hh, He. eexists.
    split; [reflexivity|]. simpl. now rewrite !length_insert.
  - intros; exact I.
  - simpl. now rewrite !length_replicate.
  - exists histogram0, expectation, logp0. auto.
Qed.

(** Entry [ibin] of the toy data set starts at the content of cell [ibin]
    of the second histogram, entry [ibin] of the expectation at the content
    of cell [ibin] of the first histogram times the integral of the function
    over bin [ibin + 1]. *)
Lemma start_bins_entries (h1 h2 : TH1D) (f : TF1) (bins : list nat)
    (histogram0 histogram1 : list Z) (expectation0 expectation1 : list float)
    (logp0 logp1 : float) :
  for_each (start_bin h1 h2 (Some (Some f))) bins
    (histogram0, expectation0, logp0)
  = Some (histogram1, expectation1, logp1) ->
  length histogram1 = length histogram0
  /\ length expectation1 = length expectation0
  /\ forall ibin : nat,
       (In ibin bins ->
          ((ibin < length histogram0)%nat ->
             histogram1 !! ibin
             = Some (Cxx.unsigned_of_int
                       (Cxx.int_of_double (GetBinContent h2 ibin))))
          /\ ((ibin < length expectation0)%nat ->
               expectation1 !! ibin
               = Some (Cxx.double_of_int
                         (Cxx.int_of_double (GetBinContent h1 ibin))
                       * Integral f (GetBinLowEdge h1 (ibin + 1))
                           (GetBinUpEdge h1 (ibin + 1)))%float))
       /\ (~ In ibin bins ->
            histogram1 !! ibin = histogram0 !! ibin
            /\ expectation1 !! ibin = expectation0 !! ibin).
Proof.
  revert histogram0 expectation0 logp0.
  induction bins as [|b bins IH]; intros histogram0 expectation0 logp0; simpl.
  - intros H. injection H as <- <- <-. repeat split; tauto.
  - intros H. apply IH in H as (Hh & He & Hentries).
    rewrite length_insert in Hh. rewrite length_insert in He.
    split; [exact Hh|]. split; [exact He|].
    intros ibin. destruct (Hentries ibin) as [Hset Hkept].
    destruct (in_dec Nat.eq_dec ibin bins) as [Hrest | Hrest].
    + split; [|tauto]. intros _.
      destruct (Hset Hrest) as [Hhist Hexp].
      split; intros Hlt; [apply Hhist | apply Hexp]; now rewrite length_insert.
    + destruct (Hkept Hrest) as [-> ->]. split.
      * intros [<- | Hin]; [|contradiction].
        split; intros Hlt; now apply list_lookup_insert_eq.
      * intros Hnot. split; apply list_lookup_insert_ne; tauto.
Qed.

Lemma start_distribution_entries (self : BCEfficiencyFitter) (h1 h2 : TH1D)
    (f : TF1) (histogram0 : list Z) (expectation : list float) (logp0 : float)
    (ibin : nat) :
  fFitFunction self !! 0%nat = Some (Some f) ->
  start_distribution self h1 h2 = Some (histogram0, expectation, logp0) ->
  (ibin < GetNbinsX h1)%nat ->
  histogram0 !! ibin
  = Some (Cxx.unsigned_of_int (Cxx.int_of_double (GetBinContent h2 ibin)))
  /\ expectation !! ibin
     = Some (Cxx.double_of_int (Cxx.int_of_double (GetBinContent h1 ibin))
             * Integral f (GetBinLowEdge h1 (ibin + 1))
                 (GetBinUpEdge h1 (ibin + 1)))%float.
Proof.
  unfold start_distribution. intros -> Hstart Hibin.
  apply start_bins_entries in Hstart as (_ & _ & Hentries).
  destruct (Hentries ibin) as [Hset _].
  destruct Hset as [Hh He].
  { apply In_counter_values. lia. }
  split; [apply Hh | apply He]; now rewrite length_replicate.
Qed.

(** A step on a bin both vectors have an entry for is defined. *)
Lemma bin_step_defined (hist1 : TH1D) (expectation : list float) (ibin : nat)
    (w : ToyWalk) :
  (ibin < length (histogram w))%nat ->
  (ibin < length expectation)%nat ->
  exists w' : ToyWalk, bin_step hist1 expectation ibin w = Some w'.
Proof.
  intros Hh He. unfold bin_step.
  destruct (lookup_lt_is_Some_2 _ _ Hh) as [u ->].
  destruct (lookup_lt_is_Some_2 _ _ He) as [e ->].
  destruct (0 <? _); unfold Rndm; cbn [draws position];
    repeat match goal with
           | |- context [if ?c then _ else _] => destruct c
           end; eexists; reflexivity.
Qed.

(** A step keeps the number of entries of the toy data set. *)
Lemma bin_step_length (hist1 : TH1D) (expectation : list float) (ibin : nat)
    (w w' : ToyWalk) :
  bin_step hist1 expectation ibin w = Some w' ->
  length (histogram w') = length (histogram w).
Proof.
  intros H. destruct (bin_step_shape _ _ _ _ _ H)
    as (u & g & _ & _ & _ & _ & [-> | [[_ ->] | [_ ->]]]);
    [reflexivity | apply length_insert | apply length_insert].
Qed.

(** A step keeps every toy count between 0 and the trials of its bin. *)
Lemma bin_step_within_trials (hist1 : TH1D) (expectation : list float)
    (ibin : nat) (w w' : ToyWalk) :
  bin_step hist1 expectation ibin w = Some w' ->
  within_trials hist1 (histogram w) ->
  within_trials hist1 (histogram w').
Proof.
  intros H Hin.
  destruct (bin_step_shape _ _ _ _ _ H)
    as (u & g & Hu & _ & _ & _ & [-> | [[Hlt ->] | [Hgt ->]]]);
    [exact Hin | |];
    pose proof (Hin _ _ Hu) as Hbound;
    pose proof (int_of_double_range (GetBinContent hist1 ibin)) as Hrange;
    rewrite int_of_unsigned_small in * by lia;
    rewrite unsigned_of_int_small by lia;
    intros j v Hj; apply list_lookup_insert_Some in Hj
      as [(<- & <- & _) | (_ & Hj)]; try lia; exact (Hin _ _ Hj).
Qed.

(** One iteration over a toy data set with one entry per bin is defined and
    keeps its length and, when it holds, the bound on the toy counts. *)
Lemma iteration_defined (hist1 : TH1D) (expectation : list float) (nbins : nat)
    (callback : bool) (logp_start : float) (iiter : nat) (w : ToyWalk) :
  length expectation = nbins ->
  length (histogram w) = nbins ->
  exists w' : ToyWalk,
    iteration hist1 expectation nbins callback logp_start iiter w = Some w'
    /\ length (histogram w') = nbins
    /\ (within_trials hist1 (histogram w) -> within_trials hist1 (histogram w')).
Proof.
  intros He Hh. unfold iteration.
  destruct (for_each_invariant (bin_step hist1 expectation)
              (fun w0 => length (histogram w0) = nbins
                         /\ (within_trials hist1 (histogram w)
                             -> within_trials hist1 (histogram w0)))
              (fun ibin => (ibin < nbins)%nat)
              (counter_values 0 nbins) w)
    as (w1 & -> & Hlen & Hin).
  - intros ibin w0 Hibin [Hlen Hin].
    destruct (bin_step_defined hist1 expectation ibin w0) as [w1 Hw1]; [lia..|].
    exists w1. split; [exact Hw1|]. split.
    + rewrite (bin_step_length _ _ _ _ _ Hw1). exact Hlen.
    + intros Hw. apply (bin_step_within_trials _ _ _ _ _ Hw1). auto.
  - intros ibin Hibin. apply In_counter_values in Hibin. lia.
  - auto.
  - eexists. split; [reflexivity|]. simpl. auto.
Qed.

(** Any number of iterations is defined, with the same two properties. *)
Lemma iterations_defined (hist1 : TH1D) (expectation : list float)
    (nbins : nat) (callback : bool) (logp_start : float) (nIterations : nat)
    (w : ToyWalk) :
  length expectation = nbins ->
  length (histogram w) = nbins ->
  exists w' : ToyWalk,
    for_each (iteration hist1 expectation nbins callback logp_start)
      (counter_values 0 nIterations) w = Some w'
    /\ length (histogram w') = nbins
    /\ (within_trials hist1 (histogram w) -> within_trials hist1 (histogram w')).
Proof.
  intros He Hh.
  destruct (for_each_invariant
              (iteration hist1 expectation nbins callback logp_start)
              (fun w0 => length (histogram w0) = nbins
                         /\ (within_trials hist1 (histogram w)
                             -> within_trials hist1 (histogram w0)))
              (fun _ => True) (counter_values 0 nIterations) w)
    as (w' & Hrun & Hlen & Hin).
  - intros iiter w0 _ [Hlen Hin].
    destruct (iteration_defined hist1 expectation nbins callback logp_start
                iiter w0 He Hlen) as (w1 & Hw1 & Hlen1 & Hin1).
    exists w1. auto.
  - intros; exact I.
  - auto.
  - exists w'. auto.
Qed.


End WalkFacts.



(* ------------------------------------------------------------------ *)
(** ** CalculatePValueFast: where the walk departs from its description *)

Section Departures.
Context {M : BCMath}.

(** C1.  A bin whose efficiency is 0 is not skipped.  With 10 trials, toy
    count 5 and a model that predicts 0, the test before the step lets the
    bin through, the factor of the step down is evaluated to infinity, the
    step is taken, and after one iteration the toy count is 4 and the
    logarithm of the factor has been added to the log-probability. *)
Theorem zero_efficiency_bin_walks :
  start_distribution Examples.zero_efficiency_fitter
    Examples.total_10_10 Examples.passed_5_5
  = Some ([5], [0%float], (0 + LogApproxBinomial 10 5 0)%float)
  /\ negb ((0 <? 0 / Cxx.double_of_int 10)%float
           || (0 / Cxx.double_of_int 10 <? 1.0)%float) = false
  /\ ratio_down 10 5 (0 / Cxx.double_of_int 10) = infinity
  /\ exists (pvalue pvalueCorrected : float) (final : ToyWalk),
       CalculatePValueFast Examples.zero_efficiency_fitter false 1
       = Some (PValueSuccess pvalue pvalueCorrected final)
       /\ histogram final = [4]
       /\ logp final = (0 + LogApproxBinomial 10 5 0 + log infinity)%float
       /\ position (generator final) = 2%nat.
Proof.
  repeat split; try reflexivity.
  do 3 eexists. split; [lazy - [wrap_int]; reflexivity|].
  repeat split; reflexivity.
Qed.

(** C2.  The starting distribution and the walk read cell [ibin] of the
    two histograms for the entry [ibin] of their vectors, which stands for
    the bin [ibin + 1] whose edges they use.  With 10 trials and 5 successes
    in the only bin and 2 and 1 in the underflow cells, the toy count starts
    at 1, the expectation is 2 times the integral over the bin, and the walk
    stops stepping up at 2. *)
Theorem starting_distribution_reads_underflow (f : TF1) :
  Cxx.int_of_double (GetBinContent Examples.total_2_10 1) = 10
  /\ Cxx.int_of_double (GetBinContent Examples.passed_1_5 1) = 5
  /\ start_distribution (Examples.underflow_fitter f)
       Examples.total_2_10 Examples.passed_1_5
     = Some ([1], [(2 * Integral f 0 2)%float],
             (0 + LogApproxBinomial 2 1 (Integral f 0 2))%float)
  /\ exists (pvalue pvalueCorrected : float) (final : ToyWalk),
       CalculatePValueFast
         (Examples.underflow_fitter (Examples.constant_function 0.25)) false 3
       = Some (PValueSuccess pvalue pvalueCorrected final)
       /\ histogram final = [2]
       /\ position (generator final) = 4%nat.
Proof.
  repeat split; try reflexivity.
  do 3 eexists. split; [lazy - [wrap_int]; reflexivity|].
  split; reflexivity.
Qed.

(** C3.  The efficiency the starting distribution uses is the integral of
    the function over the bin, not divided by the width of the bin.  For
    [f(x) = 0.5] on the bin [0,2] with 10 trials and 5 successes, the
    average is 0.5, which is what [LogLikelihood] uses in integration mode,
    and the starting distribution uses 1: the expectation is 10 and the
    log-probability starts at [LogApproxBinomial(10, 5, 1)]. *)
Theorem starting_distribution_uses_integral :
  (Integral (Examples.constant_function 0.5) 0 2 / (2 - 0))%float = 0.5%float
  /\ start_distribution Examples.half_efficiency_fitter
       Examples.total_10_10 Examples.passed_5_5
     = Some ([5], [10%float], (0 + LogApproxBinomial 10 5 1)%float)
  /\ exists self' : BCEfficiencyFitter,
       LogLikelihood
         (with_fFlagIntegration Examples.half_efficiency_fitter true) []
       = Some ((0 + LogApproxBinomial 10 5 0.5)%float, self').
Proof.
  repeat split; try reflexivity.
  eexists. vm_compute. reflexivity.
Qed.

(** C10.  A toy count can start above the trials the walk reads for its
    entry and stay there.  [SetHistograms] accepts a total histogram with an
    empty underflow cell and a passed histogram with 3 entries in it; the
    toy count of the first entry starts at 3 for 0 trials, and is still 3
    after two iterations. *)
Theorem toy_count_above_trials :
  fst (fst (SetHistograms
              (Examples.fitter_of (Some (Examples.constant_function 0.25))
                 None None (Examples.generator_of []))
              (Some Examples.total_0_10) (Some Examples.passed_3_5))) = true
  /\ Cxx.int_of_double (GetBinContent Examples.total_0_10 0) = 0
  /\ (exists expectation logp0,
        start_distribution Examples.stray_underflow_fitter
          Examples.total_0_10 Examples.passed_3_5
        = Some ([3], expectation, logp0))
  /\ (exists (pvalue pvalueCorrected : float) (final : ToyWalk),
        CalculatePValueFast Examples.stray_underflow_fitter false 2
        = Some (PValueSuccess pvalue pvalueCorrected final)
        /\ histogram final = [3])
  /\ ~ within_trials Examples.total_0_10 [3].
Proof.
  split; [reflexivity|]. split; [reflexivity|].
  split; [do 2 eexists; vm_compute; reflexivity|].
  split; [do 3 eexists; split; [lazy - [wrap_int]; reflexivity | reflexivity]|].
  intros H. specialize (H 0%nat 3 eq_refl).
  change (Cxx.int_of_double (GetBinContent Examples.total_0_10 0)) with 0 in H.
  lia.
Qed.

(** From a starting distribution within the trials, every toy count of the
    final toy data set is within the trials. *)
Lemma CalculatePValueFast_within_trials (self : BCEfficiencyFitter)
    (h1 h2 : TH1D) (callback : bool) (nIterations : nat)
    (histogram0 : list Z) (expectation : list float) (logp0 : float)
    (pvalue pvalueCorrected : float) (final : ToyWalk) :
  fHistogram1 self = Some h1 ->
  fHistogram2 self = Some h2 ->
  start_distribution self h1 h2 = Some (histogram0, expectation, logp0) ->
  length histogram0 = GetNbinsX h1 ->
  length expectation = GetNbinsX h1 ->
  within_trials h1 histogram0 ->
  CalculatePValueFast self callback nIterations
  = Some (PValueSuccess pvalue pvalueCorrected final) ->
  within_trials h1 (histogram final).
Proof.
  intros H1 H2 Hstart Hh He Hin. unfold CalculatePValueFast.
  rewrite H1, H2, Hstart.
  destruct (iterations_defined h1 expectation (GetNbinsX h1) callback logp0
              nIterations (mkWalk histogram0 logp0 0 (fRandom self) []) He Hh)
    as (w & -> & _ & Hkeep).
  intros Hrun. injection Hrun as _ _ Hfinal. subst final. exact (Hkeep Hin).
Qed.

End Departures.

(* ------------------------------------------------------------------ *)
(** * Further properties *)

(** ** SetHistograms *)

Lemma ltb_nan_l (x y : float) : is_nan x = true -> (x <? y)%float = false.
Proof.
  rewrite is_nan_spec, FloatAxioms.ltb_spec.
  destruct (Prim2SF x) as [s|s| |s m e]; try discriminate. reflexivity.
Qed.

Lemma ltb_nan_r (x y : float) : is_nan y = true -> (x <? y)%float = false.
Proof.
  rewrite is_nan_spec, FloatAxioms.ltb_spec.
  destruct (Prim2SF y) as [s|s| |s m e]; try discriminate.
  destruct (Prim2SF x) as [s|s| |s m e]; reflexivity.
Qed.

Lemma add_points (p : list float) (l : list nat) (d : BCDataSet) :
  fold_left (fun d0 _ => AddDataPoint d0 p) l d
  = mkBCDataSet (points d ++ replicate (length l) p) (bounds d).
Proof.
  revert d. induction l as [|a l IH]; intros d; simpl.
  - rewrite app_nil_r. now destruct d.
  - rewrite IH. simpl. now rewrite <- app_assoc.
Qed.

Lemma new_data_set_points (h1 : TH1D) :
  new_data_set h1
  = mkBCDataSet (replicate (GetNbinsX h1) [0%float; 0%float])
      [(0, (GetXmin h1, GetXmax h1)); (1, (0%float, 1%float))].
Proof.
  unfold new_data_set, counter_values. rewrite add_points, length_seq.
  reflexivity.
Qed.

(** X1.  When none of its tests fires [SetHistograms] returns [true] and reports
    nothing; afterwards the fitter points to the two histograms, its data
    set has one point [(0, 0)] per bin with the bounds of the axis on the
    first coordinate and [0, 1] on the second, the fit indices are 0 and 1,
    and the fit functions, the mode, the interval policy and the cached
    posterior are the ones it had. *)
Theorem SetHistograms_installs (self : BCEfficiencyFitter) (h1 h2 : TH1D) :
  ~ fails_a_check (Some h1) (Some h2) ->
  exists self' : BCEfficiencyFitter,
    SetHistograms self (Some h1) (Some h2) = (true, self', [])
    /\ fHistogram1 self' = Some h1
    /\ fHistogram2 self' = Some h2
    /\ fDataSet self'
       = Some (mkBCDataSet (replicate (GetNbinsX h1) [0%float; 0%float])
                 [(0, (GetXmin h1, GetXmax h1)); (1, (0%float, 1%float))])
    /\ fFitFunctionIndices self' = Some (0, 1)
    /\ fFitFunction self' = fFitFunction self
    /\ fFlagIntegration self' = fFlagIntegration self
    /\ fDataPointType self' = fDataPointType self
    /\ fHistogramBinomial self' = fHistogramBinomial self.
Proof.
  intros Hv. eexists. split; [apply SetHistograms_accepts; exact Hv|].
  simpl. rewrite new_data_set_points. repeat split; reflexivity.
Qed.

Lemma no_violation_10_5 :
  ~ fails_a_check (Some Examples.total_10_10) (Some Examples.passed_5_5).
Proof.
  intros [H | [(i & Hi & H) | H]].
  - now apply H.
  - assert (i = 1%nat) as -> by (simpl in Hi; lia).
    destruct H as [H | H]; vm_compute in H; discriminate.
  - vm_compute in H. discriminate.
Defined.

Lemma SetHistograms_installs_witness :
  exists self' : BCEfficiencyFitter,
    SetHistograms Cases.bare_fitter (Some Examples.total_10_10)
      (Some Examples.passed_5_5) = (true, self', [])
    /\ fHistogram1 self' = Some Examples.total_10_10
    /\ fHistogram2 self' = Some Examples.passed_5_5
    /\ fDataSet self'
       = Some (mkBCDataSet [[0%float; 0%float]]
                 [(0, (0%float, 2%float)); (1, (0%float, 1%float))])
    /\ fFitFunctionIndices self' = Some (0, 1)
    /\ fFitFunction self' = []
    /\ fFlagIntegration self' = false
    /\ fDataPointType self' = kDataPointSmallestInterval
    /\ fHistogramBinomial self' = None.
Proof.
  exact (SetHistograms_installs Cases.bare_fitter Examples.total_10_10
           Examples.passed_5_5 no_violation_10_5).
Defined.

Lemma check_bins_agree (h1 h2 h1' h2' : TH1D) (bins : list nat) :
  (forall i : nat, In i bins ->
     GetBinLowEdge h1 i = GetBinLowEdge h1' i
     /\ GetBinLowEdge h2 i = GetBinLowEdge h2' i
     /\ GetBinContent h1 i = GetBinContent h1' i
     /\ GetBinContent h2 i = GetBinContent h2' i) ->
  check_bins h1 h2 bins = check_bins h1' h2' bins.
Proof.
  induction bins as [|b bins IH]; intros H; simpl; [reflexivity|].
  destruct (H b (or_introl eq_refl)) as (-> & -> & -> & ->).
  rewrite IH; [reflexivity|]. intros i Hi. apply H. now right.
Qed.

(** X2.  What [SetHistograms] returns and reports depends only on the
    number of bins, on the lower edges and the contents of the bins
    [1..nbins] and on the upper end of the axis: neither the underflow and
    overflow cells nor the fitter it is called on play a part. *)
Theorem SetHistograms_reads_bins_only (self self' : BCEfficiencyFitter)
    (h1 h2 h1' h2' : TH1D) :
  GetNbinsX h1 = GetNbinsX h1' ->
  GetNbinsX h2 = GetNbinsX h2' ->
  GetXmax h1 = GetXmax h1' ->
  GetXmax h2 = GetXmax h2' ->
  (forall i : nat, (1 <= i <= GetNbinsX h1)%nat ->
     GetBinLowEdge h1 i = GetBinLowEdge h1' i
     /\ GetBinLowEdge h2 i = GetBinLowEdge h2' i
     /\ GetBinContent h1 i = GetBinContent h1' i
     /\ GetBinContent h2 i = GetBinContent h2' i) ->
  fst (fst (SetHistograms self (Some h1) (Some h2)))
  = fst (fst (SetHistograms self' (Some h1') (Some h2')))
  /\ snd (SetHistograms self (Some h1) (Some h2))
     = snd (SetHistograms self' (Some h1') (Some h2')).
Proof.
  intros Hn1 Hn2 Hx1 Hx2 Hbins. unfold SetHistograms.
  rewrite <- Hn1, <- Hn2, <- Hx1, <- Hx2.
  rewrite <- (check_bins_agree h1 h2 h1' h2').
  2:{ intros i Hi. apply Hbins. apply In_counter_values in Hi. lia. }
  destruct (negb _); [split; reflexivity|].
  destruct (check_bins _ _ _); [split; reflexivity|].
  destruct (Cxx.epsilon <? _)%float; split; reflexivity.
Qed.

Lemma SetHistograms_reads_bins_only_witness :
  fst (fst (SetHistograms Cases.bare_fitter (Some Examples.total_10_10)
              (Some Examples.passed_5_5)))
  = fst (fst (SetHistograms Examples.half_efficiency_fitter
                (Some Examples.total_0_10) (Some Examples.passed_3_5)))
  /\ snd (SetHistograms Cases.bare_fitter (Some Examples.total_10_10)
            (Some Examples.passed_5_5))
     = snd (SetHistograms Examples.half_efficiency_fitter
              (Some Examples.total_0_10) (Some Examples.passed_3_5)).
Proof.
  apply SetHistograms_reads_bins_only; try reflexivity.
  intros i Hi. assert (i = 1%nat) as -> by (simpl in Hi; lia).
  repeat split; reflexivity.
Defined.

(** X3.  A second call of [SetHistograms] with the two histograms a first
    call accepted returns [true] again and leaves the fitter as the first
    call left it. *)
Theorem SetHistograms_twice (self self' : BCEfficiencyFitter) (h1 h2 : TH1D)
    (reported : list string) :
  SetHistograms self (Some h1) (Some h2) = (true, self', reported) ->
  SetHistograms self' (Some h1) (Some h2) = (true, self', []).
Proof.
  unfold SetHistograms.
  destruct (negb _); [discriminate|].
  destruct (check_bins _ _ _); [discriminate|].
  destruct (Cxx.epsilon <? _)%float; [discriminate|].
  intros H. injection H as H _. subst self'. reflexivity.
Qed.

Lemma SetHistograms_twice_witness :
  SetHistograms
    (with_histograms Cases.bare_fitter Examples.total_10_10 Examples.passed_5_5
       (new_data_set Examples.total_10_10) (0, 1))
    (Some Examples.total_10_10) (Some Examples.passed_5_5)
  = (true,
     with_histograms Cases.bare_fitter Examples.total_10_10 Examples.passed_5_5
       (new_data_set Examples.total_10_10) (0, 1), []).
Proof.
  apply (SetHistograms_twice Cases.bare_fitter _ _ _ []). reflexivity.
Defined.

(** X4.  The entries of two bins are compared with [<], which is false of
    a NaN: two histograms with the same number of bins and edges no further
    apart than epsilon are accepted when in every bin the content of one of
    them is a NaN. *)
Theorem SetHistograms_accepts_nan (self : BCEfficiencyFitter) (h1 h2 : TH1D) :
  GetNbinsX h1 = GetNbinsX h2 ->
  (forall i : nat, (1 <= i <= GetNbinsX h1)%nat ->
     ~ edges_differ (GetBinLowEdge h1 i) (GetBinLowEdge h2 i)) ->
  ~ edges_differ (GetXmax h1) (GetXmax h2) ->
  (forall i : nat, (1 <= i <= GetNbinsX h1)%nat ->
     is_nan (GetBinContent h1 i) = true \/ is_nan (GetBinContent h2 i) = true) ->
  fst (fst (SetHistograms self (Some h1) (Some h2))) = true.
Proof.
  intros Hn Hedges Hlast Hnan.
  rewrite SetHistograms_accepts; [reflexivity|].
  intros [H | [(i & Hi & [H | H]) | H]].
  - contradiction.
  - exact (Hedges i Hi H).
  - destruct (Hnan i Hi) as [Hx | Hx];
      [rewrite (ltb_nan_l _ _ Hx) in H | rewrite (ltb_nan_r _ _ Hx) in H];
      discriminate.
  - contradiction.
Qed.

Lemma SetHistograms_accepts_nan_witness :
  fst (fst (SetHistograms Cases.bare_fitter (Some Cases.total_nan)
              (Some Examples.passed_5_5))) = true.
Proof.
  apply SetHistograms_accepts_nan.
  - reflexivity.
  - intros i Hi H. assert (i = 1%nat) as -> by (simpl in Hi; lia).
    vm_compute in H. discriminate.
  - intros H. vm_compute in H. discriminate.
  - intros i Hi. assert (i = 1%nat) as -> by (simpl in Hi; lia).
    left. reflexivity.
Defined.

(* ------------------------------------------------------------------ *)
(** ** LogLikelihood and FitFunction *)

Lemma chain_index (self : BCEfficiencyFitter) :
  Z.to_nat (if 0 <=? fMCMCCurrentChain self then fMCMCCurrentChain self else 0)
  = current_chain self.
Proof. unfold current_chain. destruct (0 <=? _) eqn:E; f_equal; lia. Qed.

Lemma current_chain_with (self : BCEfficiencyFitter) (fs : list (option TF1)) :
  current_chain (with_fFitFunction self fs) = current_chain self.
Proof. reflexivity. Qed.

(** Reads the members of a fitter that is given by its constructor. *)
Ltac fitter_fields :=
  cbn [fFitFunction fMCMCCurrentChain GetNParameters fDataSet
       fFitFunctionIndices fRandom fHistogram1 fHistogram2
       fHistogramBinomial fDataPointType fFlagIntegration].

Section EvaluatorFacts.
Context {M : BCMath}.


(** X6.  In integration mode, with a function for the current chain and
    both histograms present, [LogLikelihood(params)] returns the sum over
    the bins [1..nbins] of [LogApproxBinomial(n, k, eff)] where [eff] is the
    integral of the function over the bin divided by the width of the
    bin. *)
Theorem LogLikelihood_integration (self : BCEfficiencyFitter)
    (params : list float) (f : TF1) (h1 h2 : TH1D) :
  fFlagIntegration self = true ->
  fFitFunction self !! current_chain self = Some (Some f) ->
  fHistogram1 self = Some h1 ->
  fHistogram2 self = Some h2 ->
  exists self' : BCEfficiencyFitter,
    LogLikelihood self params =
      Some (sum_over_bins
              (fun ibin =>
                 LogApproxBinomial
                   (Cxx.int_of_double (GetBinContent h1 ibin))
                   (Cxx.int_of_double (GetBinContent h2 ibin))
                   (integrator f params (GetBinLowEdge h1 ibin)
                      (GetBinUpEdge h1 ibin)
                    / (GetBinUpEdge h1 ibin - GetBinLowEdge h1 ibin))%float)
              (GetNbinsX h1),
            self').
Proof.
  intros Hmode Hf Hh1 Hh2. unfold LogLikelihood.
  rewrite chain_index, Hf, Hh1, Hh2, Hmode. eexists. f_equal. f_equal.
  unfold sum_over_bins, counter_values. apply fold_left_sum_from.
  intros a i. reflexivity.
Qed.

(** X7.  [LogLikelihood] changes nothing in the fitter but the function of
    the current chain: the histograms, the data set, the mode, the policy,
    the generator and the functions of the other chains are the same after
    the call. *)
Theorem LogLikelihood_frame (self self' : BCEfficiencyFitter)
    (params : list float) (v : float) :
  LogLikelihood self params = Some (v, self') ->
  fHistogram1 self' = fHistogram1 self
  /\ fHistogram2 self' = fHistogram2 self
  /\ fHistogramBinomial self' = fHistogramBinomial self
  /\ fDataSet self' = fDataSet self
  /\ fFlagIntegration self' = fFlagIntegration self
  /\ fDataPointType self' = fDataPointType self
  /\ fRandom self' = fRandom self
  /\ fMCMCCurrentChain self' = fMCMCCurrentChain self
  /\ length (fFitFunction self') = length (fFitFunction self)
  /\ forall chain : nat, chain <> current_chain self ->
       fFitFunction self' !! chain = fFitFunction self !! chain.
Proof.
  unfold LogLikelihood. rewrite chain_index.
  destruct (fFitFunction self !! current_chain self) as [fc|]; [|discriminate].
  destruct fc as [f|], (fHistogram1 self) as [h1|] eqn:Hh1,
    (fHistogram2 self) as [h2|] eqn:Hh2;
    intros H; injection H as _ <-; simpl; rewrite ?Hh1, ?Hh2;
    repeat split; try reflexivity;
    try apply length_insert;
    intros chain Hchain; apply list_lookup_insert_ne; congruence.
Qed.

(** X8.  [LogLikelihood] does not depend on the parameters an earlier call
    left in the function: after a call with any parameters, a call with
    [params] returns the value and leaves the fitter that a call with
    [params] would have at first. *)
Theorem LogLikelihood_forgets (self self1 : BCEfficiencyFitter)
    (earlier params : list float) (v1 : float) :
  LogLikelihood self earlier = Some (v1, self1) ->
  LogLikelihood self1 params = LogLikelihood self params.
Proof.
  unfold LogLikelihood. rewrite chain_index.
  destruct (fFitFunction self !! current_chain self) as [fc|] eqn:Hfc;
    [|discriminate].
  destruct fc as [f|], (fHistogram1 self) as [h1|] eqn:Hh1,
    (fHistogram2 self) as [h2|] eqn:Hh2;
    intros H; injection H as _ <-;
    rewrite ?chain_index, ?Hfc, ?Hh1, ?Hh2; try reflexivity.
  rewrite !current_chain_with. unfold with_fFitFunction. fitter_fields.
  rewrite list_lookup_insert_eq by (eapply lookup_lt_Some; exact Hfc).
  rewrite Hh1, Hh2, list_insert_insert_eq. reflexivity.
Qed.

(** X9.  With a function for the current chain, [FitFunction(x, params)]
    returns the formula of that function at the first coordinate of [x] for
    the parameters [params] and leaves the fitter with these parameters in
    the function of the chain; called after [LogLikelihood], it returns and
    leaves what it would have without that call, whatever parameters that
    call left in the function and whether or not the histograms were
    there. *)
Theorem FitFunction_after_LogLikelihood (self self1 : BCEfficiencyFitter)
    (earlier params : list float) (v1 x0 : float) (rest : list float)
    (f : TF1) :
  fFitFunction self !! current_chain self = Some (Some f) ->
  LogLikelihood self earlier = Some (v1, self1) ->
  FitFunction self (x0 :: rest) params
  = Some (formula f params x0,
          with_fFitFunction self
            (<[current_chain self := Some (SetParameters f params)]>
               (fFitFunction self)))
  /\ FitFunction self1 (x0 :: rest) params
     = FitFunction self (x0 :: rest) params.
Proof.
  intros Hf Hcall. unfold LogLikelihood in Hcall. unfold FitFunction.
  rewrite chain_index, Hf in *. split; [reflexivity|].
  destruct (fHistogram1 self) as [h1|], (fHistogram2 self) as [h2|];
    injection Hcall as _ <-; rewrite ?chain_index, ?Hf;
    try reflexivity.
  rewrite current_chain_with. unfold with_fFitFunction. fitter_fields.
  rewrite list_lookup_insert_eq by (eapply lookup_lt_Some; exact Hf).
  rewrite list_insert_insert_eq. reflexivity.
Qed.

End EvaluatorFacts.


Lemma LogLikelihood_integration_witness :
  exists self' : BCEfficiencyFitter,
    @LogLikelihood Examples.plain_math
      (with_fFlagIntegration Cases.linear_fitter true) [0.25%float]
    = Some (0.25%float, self').
Proof.
  destruct (@LogLikelihood_integration Examples.plain_math
              (with_fFlagIntegration Cases.linear_fitter true) [0.25%float]
              Cases.linear_function Examples.total_10_10 Examples.passed_5_5
              eq_refl eq_refl eq_refl eq_refl) as [self' H].
  exists self'. exact H.
Defined.

Lemma LogLikelihood_frame_witness :
  fHistogram1
    (with_fFitFunction Cases.linear_fitter
       [Some (SetParameters Cases.linear_function [0.25%float])])
  = Some Examples.total_10_10.
Proof.
  exact (proj1 (@LogLikelihood_frame Examples.plain_math Cases.linear_fitter
                  (with_fFitFunction Cases.linear_fitter
                     [Some (SetParameters Cases.linear_function [0.25%float])])
                  [0.25%float] 0.25%float eq_refl)).
Defined.

Lemma LogLikelihood_forgets_witness :
  @LogLikelihood Examples.plain_math
    (with_fFitFunction Cases.linear_fitter
       [Some (SetParameters Cases.linear_function [0.25%float])])
    [0.5%float]
  = @LogLikelihood Examples.plain_math Cases.linear_fitter [0.5%float].
Proof.
  exact (@LogLikelihood_forgets Examples.plain_math Cases.linear_fitter _
           [0.25%float] [0.5%float] 0.25%float eq_refl).
Defined.

Lemma FitFunction_after_LogLikelihood_witness :
  FitFunction
    (with_fFitFunction Cases.linear_fitter
       [Some (SetParameters Cases.linear_function [0.25%float])])
    [2%float] [0.5%float]
  = FitFunction Cases.linear_fitter [2%float] [0.5%float].
Proof.
  exact (proj2 (@FitFunction_after_LogLikelihood Examples.plain_math
                  Cases.linear_fitter _ [0.25%float] [0.5%float] 0.25%float
                  2%float [] Cases.linear_function eq_refl eq_refl)).
Defined.

(* ------------------------------------------------------------------ *)
(** ** CalculatePValueFast: single steps *)

Section StepEdges.
Context {M : BCMath}.

(** X10.  A bin whose efficiency [yexp / n] is a NaN is the one case the
    test before the step stops: the toy count and the log-probability stay
    as they are and one number has been drawn. *)
Theorem bin_step_skips_nan (hist1 : TH1D) (expectation : list float)
    (ibin : nat) (w : ToyWalk) (u : Z) (yexp : float) :
  histogram w !! ibin = Some u ->
  expectation !! ibin = Some yexp ->
  0 < Cxx.int_of_double (GetBinContent hist1 ibin) ->
  is_nan (yexp / Cxx.double_of_int
                   (Cxx.int_of_double (GetBinContent hist1 ibin)))%float = true ->
  bin_step hist1 expectation ibin w
  = Some (unmoved w (advanced (generator w) 1)).
Proof.
  intros Hu He Hn Hnan. unfold bin_step. rewrite Hu, He.
  destruct (0 <? _) eqn:En; [|lia].
  unfold Rndm. rewrite at_limit_test_is_nan, Hnan. reflexivity.
Qed.

(** X11.  A bin for which no trials are read and whose toy count is 0 is
    never moved: one number is drawn, nothing else changes, and the
    expectation is not looked at. *)
Theorem bin_step_empty_bin (hist1 : TH1D) (expectation : list float)
    (ibin : nat) (w : ToyWalk) :
  histogram w !! ibin = Some 0 ->
  Cxx.int_of_double (GetBinContent hist1 ibin) <= 0 ->
  bin_step hist1 expectation ibin w
  = Some (unmoved w (advanced (generator w) 1)).
Proof.
  intros Hu Hn. unfold bin_step. rewrite Hu.
  destruct (0 <? _) eqn:En; [lia|].
  unfold Rndm. cbn [draws position].
  change (negb ((0 <? 0)%float || (0 <? 1.0)%float)) with false. cbv iota.
  change (Cxx.int_of_unsigned 0) with 0. rewrite En.
  change (0 <? 0) with false. rewrite !andb_false_r. reflexivity.
Qed.

(** A step draws once or twice from the same sequence of numbers. *)
Lemma bin_step_draws (hist1 : TH1D) (expectation : list float) (ibin : nat)
    (w w' : ToyWalk) :
  bin_step hist1 expectation ibin w = Some w' ->
  draws (generator w') = draws (generator w)
  /\ Z.of_nat (position (generator w)) + 1
     <= Z.of_nat (position (generator w'))
     <= Z.of_nat (position (generator w)) + 2.
Proof.
  unfold bin_step. destruct (histogram w !! ibin) as [u|]; [|discriminate].
  destruct (if 0 <? _ then _ else _) as [yexp|]; [|discriminate].
  unfold Rndm. cbn [draws position].
  repeat match goal with
         | |- context [if ?c then _ else _] => destruct c
         end;
    intros H; injection H as H; subst w'; simpl; split; (reflexivity || lia).
Qed.

(** A step does not touch the counter nor what the callback saw. *)
Lemma bin_step_keeps (hist1 : TH1D) (expectation : list float) (ibin : nat)
    (w w' : ToyWalk) :
  bin_step hist1 expectation ibin w = Some w' ->
  counter_pvalue w' = counter_pvalue w /\ observed w' = observed w.
Proof.
  intros H. destruct (bin_step_shape _ _ _ _ _ H)
    as (u & g & _ & Hc & Ho & _). auto.
Qed.

End StepEdges.

Lemma bin_step_skips_nan_witness :
  @bin_step Examples.plain_math Examples.total_10_10 [nan] 0 Examples.walk_at_5
  = Some (unmoved Examples.walk_at_5
            (advanced (generator Examples.walk_at_5) 1)).
Proof.
  apply (@bin_step_skips_nan Examples.plain_math Examples.total_10_10 [nan]
           0%nat Examples.walk_at_5 5 nan);
    [reflexivity | reflexivity | vm_compute; reflexivity | reflexivity].
Defined.

Lemma bin_step_empty_bin_witness :
  @bin_step Examples.plain_math Cases.empty_histogram [0%float] 0
    Cases.walk_at_0
  = Some (unmoved Cases.walk_at_0 (advanced (generator Cases.walk_at_0) 1)).
Proof.
  apply (@bin_step_empty_bin Examples.plain_math);
    [reflexivity | vm_compute; discriminate].
Defined.

(* ------------------------------------------------------------------ *)
(** ** CalculatePValueFast: whole runs *)

Lemma for_each_preserves {A S : Type} (body : A -> S -> option S)
    (Inv : S -> Prop) (l : list A) (s s' : S) :
  (forall (a : A) (s0 s1 : S), body a s0 = Some s1 -> Inv s0 -> Inv s1) ->
  for_each body l s = Some s' -> Inv s -> Inv s'.
Proof.
  intros Hbody. revert s. induction l as [|a l IH]; intros s; simpl.
  - intros H. injection H as <-. auto.
  - destruct (body a s) as [s1|] eqn:E; [|discriminate].
    intros H Hs. apply (IH s1 H). eauto.
Qed.

(** A quantity that every round of a loop raises by at least [lo] and at
    most [hi] is raised by the loop by at least [lo] and at most [hi] per
    round. *)
Lemma for_each_measure {A S : Type} (body : A -> S -> option S)
    (m : S -> Z) (lo hi : Z) (l : list A) (s s' : S) :
  (forall (a : A) (s0 s1 : S), body a s0 = Some s1 ->
     m s0 + lo <= m s1 <= m s0 + hi) ->
  for_each body l s = Some s' ->
  m s + lo * Z.of_nat (length l) <= m s' <= m s + hi * Z.of_nat (length l).
Proof.
  intros Hbody. revert s. induction l as [|a l IH]; intros s; simpl length.
  - simpl. intros H. injection H as <-. lia.
  - simpl for_each. destruct (body a s) as [s1|] eqn:E; [|discriminate].
    intros H. specialize (IH s1 H). specialize (Hbody a s s1 E). lia.
Qed.

Section RunFacts.
Context {M : BCMath}.

Lemma steps_keep (hist1 : TH1D) (expectation : list float) (bins : list nat)
    (w w' : ToyWalk) :
  for_each (bin_step hist1 expectation) bins w = Some w' ->
  counter_pvalue w' = counter_pvalue w /\ observed w' = observed w.
Proof.
  intros H.
  apply (for_each_preserves (bin_step hist1 expectation)
           (fun w0 => counter_pvalue w0 = counter_pvalue w
                      /\ observed w0 = observed w) bins w w'); auto.
  intros a s0 s1 Hstep [Hc Ho].
  destruct (bin_step_keeps _ _ _ _ _ Hstep) as [-> ->]. auto.
Qed.

(** X13.  With a callback, the callback is called once per iteration, each
    time with the expectation of the starting distribution and a toy data
    set of one entry per bin; without one it is never called. *)
Theorem callback_once_per_iteration (self : BCEfficiencyFitter) (h1 h2 : TH1D)
    (callback : bool) (nIterations : nat) (histogram0 : list Z)
    (expectation : list float) (logp0 pvalue pvalueCorrected : float)
    (final : ToyWalk) :
  fHistogram1 self = Some h1 ->
  fHistogram2 self = Some h2 ->
  start_distribution self h1 h2 = Some (histogram0, expectation, logp0) ->
  CalculatePValueFast self callback nIterations
  = Some (PValueSuccess pvalue pvalueCorrected final) ->
  length (observed final) = (if callback then nIterations else 0%nat)
  /\ forall (seen : list float) (toys : list Z),
       In (seen, toys) (observed final) ->
       seen = expectation /\ length toys = length histogram0.
Proof.
  intros H1 H2 Hstart. unfold CalculatePValueFast. rewrite H1, H2, Hstart.
  destruct (for_each _ _ _) as [w|] eqn:Hrun; [|discriminate].
  intros H. injection H as _ _ <-. split.
  - pose proof (for_each_measure
                  (iteration h1 expectation (GetNbinsX h1) callback logp0)
                  (fun w0 => Z.of_nat (length (observed w0)))
                  (if callback then 1 else 0) (if callback then 1 else 0)
                  (counter_values 0 nIterations)
                  (mkWalk histogram0 logp0 0 (fRandom self) []) w) as Hm.
    unfold counter_values in Hm. rewrite length_seq in Hm. simpl in Hm.
    destruct callback; (destruct Hm; [|exact Hrun|lia]);
      intros a s0 s1; unfold iteration;
      (destruct (for_each _ _ s0) as [t|] eqn:Hsteps; [|discriminate]);
      destruct (steps_keep _ _ _ _ _ Hsteps) as [_ Ho];
      intros Hit; injection Hit as <-; unfold invoke_callback; simpl;
      rewrite Ho; rewrite ?length_app; simpl; lia.
  - apply (for_each_preserves
             (iteration h1 expectation (GetNbinsX h1) callback logp0)
             (fun w0 => length (histogram w0) = length histogram0
                        /\ forall seen toys, In (seen, toys) (observed w0) ->
                             seen = expectation
                             /\ length toys = length histogram0)
             (counter_values 0 nIterations)
             (mkWalk histogram0 logp0 0 (fRandom self) []) w); [|exact Hrun|].
    + intros a s0 s1. unfold iteration.
      destruct (for_each _ _ s0) as [t|] eqn:Hsteps; [|discriminate].
      destruct (steps_keep _ _ _ _ _ Hsteps) as [_ Ho].
      intros Hit [Hlen Hseen]. injection Hit as <-. simpl.
      assert (Hlen' : length (histogram t) = length histogram0).
      { apply (for_each_preserves (bin_step h1 expectation)
                 (fun w0 => length (histogram w0) = length histogram0)
                 (counter_values 0 (GetNbinsX h1)) s0 t);
          [|exact Hsteps|exact Hlen].
        intros b u0 u1 Hb Hu. now rewrite (bin_step_length _ _ _ _ _ Hb). }
      split; [exact Hlen'|]. unfold invoke_callback. rewrite Ho.
      destruct callback; [|exact Hseen].
      intros seen toys Hin. apply in_app_or in Hin as [Hin | [Hin | []]];
        [now apply Hseen|]. injection Hin as <- <-. auto.
    + simpl. split; [reflexivity | intros ? ? []].
Qed.

(** X14.  A run takes its numbers from the generator in order, at least one
    and at most two per bin and iteration. *)
Theorem draws_per_run (self : BCEfficiencyFitter) (h1 h2 : TH1D)
    (callback : bool) (nIterations : nat) (pvalue pvalueCorrected : float)
    (final : ToyWalk) :
  fHistogram1 self = Some h1 ->
  fHistogram2 self = Some h2 ->
  CalculatePValueFast self callback nIterations
  = Some (PValueSuccess pvalue pvalueCorrected final) ->
  draws (generator final) = draws (fRandom self)
  /\ Z.of_nat (position (fRandom self))
     + Z.of_nat (GetNbinsX h1) * Z.of_nat nIterations
     <= Z.of_nat (position (generator final))
     <= Z.of_nat (position (fRandom self))
        + 2 * Z.of_nat (GetNbinsX h1) * Z.of_nat nIterations.
Proof.
  intros H1 H2. unfold CalculatePValueFast. rewrite H1, H2.
  destruct (start_distribution self h1 h2) as [[[histogram0 expectation] logp0]|];
    [|discriminate].
  destruct (for_each _ _ _) as [w|] eqn:Hrun; [|discriminate].
  intros H. injection H as _ _ <-.
  assert (Hiter : forall (a : nat) (s0 s1 : ToyWalk),
             iteration h1 expectation (GetNbinsX h1) callback logp0 a s0
             = Some s1 ->
             draws (generator s1) = draws (generator s0)
             /\ Z.of_nat (position (generator s0)) + Z.of_nat (GetNbinsX h1)
                <= Z.of_nat (position (generator s1))
                <= Z.of_nat (position (generator s0))
                   + 2 * Z.of_nat (GetNbinsX h1)).
  { intros a s0 s1. unfold iteration.
    destruct (for_each _ _ s0) as [t|] eqn:Hsteps; [|discriminate].
    intros Hit. injection Hit as <-. simpl. split.
    - apply (for_each_preserves (bin_step h1 expectation)
               (fun w0 => draws (generator w0) = draws (generator s0))
               (counter_values 0 (GetNbinsX h1)) s0 t);
        [|exact Hsteps|reflexivity].
      intros b u0 u1 Hb Hu.
      destruct (bin_step_draws _ _ _ _ _ Hb) as [-> _]. exact Hu.
    - pose proof (for_each_measure (bin_step h1 expectation)
                    (fun w0 => Z.of_nat (position (generator w0))) 1 2
                    (counter_values 0 (GetNbinsX h1)) s0 t
                    (fun b u0 u1 Hb => proj2 (bin_step_draws _ _ _ _ _ Hb))
                    Hsteps) as Hm.
      unfold counter_values in Hm. rewrite length_seq in Hm. lia. }
  split.
  - apply (for_each_preserves
             (iteration h1 expectation (GetNbinsX h1) callback logp0)
             (fun w0 => draws (generator w0) = draws (fRandom self))
             (counter_values 0 nIterations)
             (mkWalk histogram0 logp0 0 (fRandom self) []) w);
      [|exact Hrun|reflexivity].
    intros a s0 s1 Hit Hs. destruct (Hiter a s0 s1 Hit) as [-> _]. exact Hs.
  - pose proof (for_each_measure
                  (iteration h1 expectation (GetNbinsX h1) callback logp0)
                  (fun w0 => Z.of_nat (position (generator w0)))
                  (Z.of_nat (GetNbinsX h1)) (2 * Z.of_nat (GetNbinsX h1))
                  (counter_values 0 nIterations)
                  (mkWalk histogram0 logp0 0 (fRandom self) []) w
                  (fun a s0 s1 Hit => proj2 (Hiter a s0 s1 Hit)) Hrun) as Hm.
    unfold counter_values in Hm. rewrite length_seq in Hm. simpl in Hm. lia.
Qed.

Lemma wrap_int_small (z : Z) :
  Cxx.INT_MIN <= z <= Cxx.INT_MAX -> wrap_int z = z.
Proof.
  unfold wrap_int, Cxx.INT_MIN, Cxx.INT_MAX, Cxx.UINT_MOD. intros H.
  rewrite Z.mod_small by lia. lia.
Qed.

(** As long as the counter cannot pass [INT_MAX], the iterations raise it
    by at most one each. *)
Lemma counter_bounded (h1 : TH1D) (expectation : list float) (nbins : nat)
    (callback : bool) (logp_start : float) (rounds : list nat) :
  forall w w' : ToyWalk,
    for_each (iteration h1 expectation nbins callback logp_start) rounds w
    = Some w' ->
    0 <= counter_pvalue w ->
    counter_pvalue w + Z.of_nat (length rounds) <= Cxx.INT_MAX ->
    counter_pvalue w <= counter_pvalue w'
    <= counter_pvalue w + Z.of_nat (length rounds).
Proof.
  induction rounds as [|a rounds IH]; intros w w'; simpl for_each; simpl length.
  - intros H. injection H as <-. simpl. lia.
  - destruct (iteration _ _ _ _ _ a w) as [w1|] eqn:Hit; [|discriminate].
    intros Hrest Hlow Hhigh.
    assert (Hone : counter_pvalue w <= counter_pvalue w1 <= counter_pvalue w + 1).
    { unfold iteration in Hit.
      destruct (for_each _ _ w) as [t|] eqn:Hsteps; [|discriminate].
      destruct (steps_keep _ _ _ _ _ Hsteps) as [Hc _].
      injection Hit as <-. simpl. rewrite Hc.
      destruct (_ <? _)%float; [|lia].
      rewrite wrap_int_small; unfold Cxx.INT_MIN, Cxx.INT_MAX in *; lia. }
    specialize (IH w1 w' Hrest). lia.
Qed.

(** X15.  For at most [INT_MAX] iterations, the counter behind the p-value
    ends between 0 and the number of iterations; the p-value is the counter
    divided by the number of iterations and the corrected p-value is
    [CorrectPValue] of it for the number of parameters and the number of
    bins. *)
Theorem pvalue_is_a_fraction (self : BCEfficiencyFitter) (h1 h2 : TH1D)
    (callback : bool) (nIterations : nat) (pvalue pvalueCorrected : float)
    (final : ToyWalk) :
  Z.of_nat nIterations <= Cxx.INT_MAX ->
  fHistogram1 self = Some h1 ->
  fHistogram2 self = Some h2 ->
  CalculatePValueFast self callback nIterations
  = Some (PValueSuccess pvalue pvalueCorrected final) ->
  0 <= counter_pvalue final <= Z.of_nat nIterations
  /\ pvalue = (Cxx.double_of_int (counter_pvalue final)
               / Cxx.double_of_int (Z.of_nat nIterations))%float
  /\ pvalueCorrected
     = CorrectPValue pvalue (GetNParameters self) (Z.of_nat (GetNbinsX h1)).
Proof.
  intros Hmax H1 H2. unfold CalculatePValueFast. rewrite H1, H2.
  destruct (start_distribution self h1 h2) as [[[histogram0 expectation] logp0]|];
    [|discriminate].
  destruct (for_each _ _ _) as [w|] eqn:Hrun; [|discriminate].
  intros H. injection H as <- <- <-. split; [|split; reflexivity].
  pose proof (counter_bounded h1 expectation (GetNbinsX h1) callback logp0
                (counter_values 0 nIterations)
                (mkWalk histogram0 logp0 0 (fRandom self) []) w Hrun) as Hm.
  unfold counter_values in Hm. rewrite length_seq in Hm. simpl in Hm.
  apply Hm; lia.
Qed.

End RunFacts.

Lemma callback_once_per_iteration_witness :
  length (observed (Cases.final_of Cases.underflow_run)) = 3%nat.
Proof.
  exact (proj1 (@callback_once_per_iteration Examples.plain_math
                  (Examples.underflow_fitter (Examples.constant_function 0.25))
                  Examples.total_2_10 Examples.passed_1_5 true 3
                  [1] [1%float] 0.5%float
                  (Cases.pvalue_of Cases.underflow_run)
                  (Cases.corrected_of Cases.underflow_run)
                  (Cases.final_of Cases.underflow_run)
                  eq_refl eq_refl ltac:(vm_compute; reflexivity)
                  ltac:(vm_compute; reflexivity))).
Defined.

Lemma draws_per_run_witness :
  0 + 1 * 3 <= Z.of_nat (position (generator (Cases.final_of Cases.underflow_run)))
  <= 0 + 2 * 1 * 3.
Proof.
  exact (proj2 (@draws_per_run Examples.plain_math
                  (Examples.underflow_fitter (Examples.constant_function 0.25))
                  Examples.total_2_10 Examples.passed_1_5 true 3
                  (Cases.pvalue_of Cases.underflow_run)
                  (Cases.corrected_of Cases.underflow_run)
                  (Cases.final_of Cases.underflow_run)
                  eq_refl eq_refl ltac:(vm_compute; reflexivity))).
Defined.

Lemma pvalue_is_a_fraction_witness :
  0 <= counter_pvalue (Cases.final_of Cases.underflow_run) <= 3.
Proof.
  exact (proj1 (@pvalue_is_a_fraction Examples.plain_math
                  (Examples.underflow_fitter (Examples.constant_function 0.25))
                  Examples.total_2_10 Examples.passed_1_5 true 3
                  (Cases.pvalue_of Cases.underflow_run)
                  (Cases.corrected_of Cases.underflow_run)
                  (Cases.final_of Cases.underflow_run)
                  ltac:(vm_compute; discriminate)
                  eq_refl eq_refl ltac:(vm_compute; reflexivity))).
Defined.

Section BoundFacts.
Context {M : BCMath}.

(** X16.  With a fit function bound, when in every cell the walk reads
    (the cells 0 to nbins - 1) the second histogram holds at least 0 and at
    most what the first holds, the call returns [true] and every toy count
    of the final toy data set lies between 0 and the trials read for its
    entry, after any number of iterations. *)
Theorem walk_within_cells (self : BCEfficiencyFitter) (f : TF1) (h1 h2 : TH1D)
    (callback : bool) (nIterations : nat) :
  fFitFunction self !! 0%nat = Some (Some f) ->
  fHistogram1 self = Some h1 ->
  fHistogram2 self = Some h2 ->
  (forall ibin : nat, (ibin < GetNbinsX h1)%nat ->
     0 <= Cxx.int_of_double (GetBinContent h2 ibin)
       <= Cxx.int_of_double (GetBinContent h1 ibin)) ->
  exists (pvalue pvalueCorrected : float) (final : ToyWalk),
    CalculatePValueFast self callback nIterations
    = Some (PValueSuccess pvalue pvalueCorrected final)
    /\ length (histogram final) = GetNbinsX h1
    /\ within_trials h1 (histogram final).
Proof.
  intros Hf H1 H2 Hcells. unfold CalculatePValueFast. rewrite H1, H2.
  destruct (start_distribution_defined self h1 h2 f Hf)
    as (histogram0 & expectation & logp0 & Hstart & Hh & He).
  rewrite Hstart.
  assert (Hin : within_trials h1 histogram0).
  { intros ibin u Hu.
    assert (Hlt : (ibin < GetNbinsX h1)%nat).
    { rewrite <- Hh. eapply lookup_lt_Some. exact Hu. }
    destruct (start_distribution_entries self h1 h2 f histogram0 expectation
                logp0 ibin Hf Hstart Hlt) as [Hentry _].
    rewrite Hentry in Hu. injection Hu as <-.
    pose proof (Hcells ibin Hlt) as Hcell.
    pose proof (int_of_double_range (GetBinContent h1 ibin)) as Hrange.
    rewrite unsigned_of_int_small by lia. exact Hcell. }
  destruct (iterations_defined h1 expectation (GetNbinsX h1) callback logp0
              nIterations (mkWalk histogram0 logp0 0 (fRandom self) []) He Hh)
    as (w & -> & Hlen & Hkeep).
  do 3 eexists. split; [reflexivity|]. split; [exact Hlen | exact (Hkeep Hin)].
Qed.

(** Within the trials, a step changes the toy count of its bin by at most
    one and no other. *)
Lemma bin_step_change (hist1 : TH1D) (expectation : list float) (a : nat)
    (w w1 : ToyWalk) (i : nat) (u u1 : Z) :
  bin_step hist1 expectation a w = Some w1 ->
  within_trials hist1 (histogram w) ->
  histogram w !! i = Some u ->
  histogram w1 !! i = Some u1 ->
  (i = a -> -1 <= u1 - u <= 1) /\ (i <> a -> u1 = u).
Proof.
  intros Hstep Hin Hu Hu1.
  destruct (bin_step_shape _ _ _ _ _ Hstep)
    as (ua & g & Hua & _ & _ & _ & [-> | [[Hlt Hh] | [Hgt Hh]]]).
  - simpl in Hu1. rewrite Hu in Hu1. injection Hu1 as <-. split; intros; lia.
  - pose proof (Hin _ _ Hua) as Hbound.
    pose proof (int_of_double_range (GetBinContent hist1 a)) as Hrange.
    rewrite int_of_unsigned_small in * by lia.
    rewrite unsigned_of_int_small in Hh by lia. rewrite Hh in Hu1.
    apply list_lookup_insert_Some in Hu1 as [(<- & <- & _) | (Hne & Hu1)].
    + rewrite Hua in Hu. injection Hu as <-. split; intros; [lia | congruence].
    + rewrite Hu in Hu1. injection Hu1 as <-. split; intros; [congruence | lia].
  - pose proof (Hin _ _ Hua) as Hbound.
    pose proof (int_of_double_range (GetBinContent hist1 a)) as Hrange.
    rewrite int_of_unsigned_small in * by lia.
    rewrite unsigned_of_int_small in Hh by lia. rewrite Hh in Hu1.
    apply list_lookup_insert_Some in Hu1 as [(<- & <- & _) | (Hne & Hu1)].
    + rewrite Hua in Hu. injection Hu as <-. split; intros; [lia | congruence].
    + rewrite Hu in Hu1. injection Hu1 as <-. split; intros; [congruence | lia].
Qed.

Lemma steps_change (hist1 : TH1D) (expectation : list float) (bins : list nat) :
  List.NoDup bins ->
  forall (w w' : ToyWalk) (i : nat) (u u' : Z),
    for_each (bin_step hist1 expectation) bins w = Some w' ->
    within_trials hist1 (histogram w) ->
    histogram w !! i = Some u ->
    histogram w' !! i = Some u' ->
    (In i bins -> -1 <= u' - u <= 1) /\ (~ In i bins -> u' = u).
Proof.
  induction 1 as [|a bins Hnew Hnodup IH]; intros w w' i u u'; simpl.
  - intros H _ Hu Hu'. injection H as <-. rewrite Hu in Hu'.
    injection Hu' as <-. split; [intros [] | reflexivity].
  - destruct (bin_step hist1 expectation a w) as [w1|] eqn:Hstep; [|discriminate].
    intros Hrest Hin Hu Hu'.
    assert (Hlen : length (histogram w1) = length (histogram w))
      by exact (bin_step_length _ _ _ _ _ Hstep).
    destruct (lookup_lt_is_Some_2 (histogram w1) i) as [u1 Hu1].
    { rewrite Hlen. eapply lookup_lt_Some. exact Hu. }
    destruct (bin_step_change _ _ _ _ _ _ _ _ Hstep Hin Hu Hu1) as [Hsame Hother].
    destruct (IH w1 w' i u1 u' Hrest
                (bin_step_within_trials _ _ _ _ _ Hstep Hin) Hu1 Hu')
      as [Hmoved Hkept].
    destruct (Nat.eq_dec i a) as [-> | Hne].
    + rewrite (Hkept Hnew). split; [intros _; now apply Hsame | tauto].
    + rewrite <- (Hother Hne). split; [intros [Heq | Hi]; [congruence | auto]|].
      intros Hnot. apply Hkept. tauto.
Qed.

(** X17.  Within the trials, one iteration changes every toy count by at
    most one. *)
Theorem iteration_moves_by_one (hist1 : TH1D) (expectation : list float)
    (nbins : nat) (callback : bool) (logp_start : float) (iiter : nat)
    (w w' : ToyWalk) (ibin : nat) (u u' : Z) :
  iteration hist1 expectation nbins callback logp_start iiter w = Some w' ->
  within_trials hist1 (histogram w) ->
  histogram w !! ibin = Some u ->
  histogram w' !! ibin = Some u' ->
  -1 <= u' - u <= 1.
Proof.
  unfold iteration.
  destruct (for_each _ _ w) as [w1|] eqn:Hsteps; [|discriminate].
  intros H Hin Hu Hu'. injection H as <-. simpl in Hu'.
  destruct (steps_change hist1 expectation (counter_values 0 nbins)
              (List.seq_NoDup nbins 0) w w1 ibin u u' Hsteps Hin Hu Hu')
    as [Hmoved Hkept].
  destruct (in_dec Nat.eq_dec ibin (counter_values 0 nbins)) as [Hi | Hi];
    [auto | rewrite (Hkept Hi); lia].
Qed.

End BoundFacts.

Lemma cells_10_5 (ibin : nat) :
  (ibin < GetNbinsX Examples.total_10_10)%nat ->
  0 <= Cxx.int_of_double (GetBinContent Examples.passed_5_5 ibin)
    <= Cxx.int_of_double (GetBinContent Examples.total_10_10 ibin).
Proof.
  intros H. assert (ibin = 0%nat) as -> by (simpl in H; lia).
  vm_compute. split; discriminate.
Defined.

Lemma walk_within_cells_witness :
  exists (pvalue pvalueCorrected : float) (final : ToyWalk),
    @CalculatePValueFast Examples.plain_math Cases.up_down_fitter false 2
    = Some (PValueSuccess pvalue pvalueCorrected final)
    /\ length (histogram final) = 1%nat
    /\ within_trials Examples.total_10_10 (histogram final).
Proof.
  exact (@walk_within_cells Examples.plain_math Cases.up_down_fitter
           (Examples.constant_function 0.25) Examples.total_10_10
           Examples.passed_5_5 false 2 eq_refl eq_refl eq_refl cells_10_5).
Defined.

Lemma within_trials_5 : within_trials Examples.total_10_10 [5].
Proof.
  intros ibin u H. destruct ibin as [|ibin]; [|discriminate].
  injection H as <-. vm_compute. split; discriminate.
Defined.

Lemma iteration_moves_by_one_witness : -1 <= 6 - 5 <= 1.
Proof.
  exact (@iteration_moves_by_one Examples.plain_math Examples.total_10_10
           [5%float] 1 false 0%float 0 Examples.walk_at_5
           (mkWalk [6] (0 + ratio_up 10 5 0.5)%float 0
              (advanced (generator Examples.walk_at_5) 2) [])
           0 5 6 ltac:(vm_compute; reflexivity) within_trials_5
           eq_refl eq_refl).
Defined.

(* ------------------------------------------------------------------ *)
(** ** GetUncertainties and the graph of DrawFit *)

Lemma centers_inside :
  forallb (fun i => (0 <? GetBinCenter i)%float && (GetBinCenter i <? 1)%float)
    (counter_values 1 1000) = true.
Proof. vm_compute. reflexivity. Qed.

Section IntervalFacts.
Context {M : BCMath} {P : PosteriorStats}.

(** What [GetUncertainties] returns, sets and reports depends on the fitter
    only through the interval policy. *)
Lemma GetUncertainties_policy_only (self1 self2 : BCEfficiencyFitter)
    (n k : Z) (p : float) :
  fDataPointType self1 = fDataPointType self2 ->
  fst (fst (GetUncertainties self1 n k p))
  = fst (fst (GetUncertainties self2 n k p))
  /\ snd (GetUncertainties self1 n k p) = snd (GetUncertainties self2 n k p).
Proof.
  intros Hpolicy. unfold GetUncertainties. rewrite Hpolicy.
  destruct (n =? 0); [split; reflexivity|].
  destruct (fDataPointType self2); try (split; reflexivity).
  destruct (GetSmallestIntervals _ _); split; reflexivity.
Qed.

Lemma GetUncertainties_keeps_policy (self : BCEfficiencyFitter) (n k : Z)
    (p : float) :
  fDataPointType (snd (fst (GetUncertainties self n k p)))
  = fDataPointType self.
Proof.
  unfold GetUncertainties. destruct (n =? 0); [reflexivity|].
  destruct (fDataPointType self) eqn:E; try (simpl; exact E).
  destruct (GetSmallestIntervals _ _); simpl; exact E.
Qed.

(** X18.  [GetUncertainties] returns [false] exactly when [n] is 0,
    whatever the policy; it reports an error exactly when [n] is not 0 and
    the policy is none of the three known ones, and then the three outputs
    are 0 although [true] is returned. *)
Theorem GetUncertainties_returns (self : BCEfficiencyFitter) (n k : Z)
    (p : float) :
  (fst (fst (fst (GetUncertainties self n k p))) = false <-> n = 0)
  /\ (snd (GetUncertainties self n k p) <> []
      <-> n <> 0 /\ exists value : Z, fDataPointType self = kDataPointOther value)
  /\ (snd (GetUncertainties self n k p) <> [] ->
      fst (fst (GetUncertainties self n k p)) = (true, mkEstimate 0 0 0)
      /\ snd (GetUncertainties self n k p) = [Msg.invalid_type]).
Proof.
  unfold GetUncertainties. destruct (n =? 0) eqn:En.
  - apply Z.eqb_eq in En. simpl. split; [tauto|]. split.
    + split; [congruence | intros [Hn _]; contradiction].
    + congruence.
  - apply Z.eqb_neq in En.
    destruct (fDataPointType self) as [| | |value] eqn:Epolicy;
      try destruct (GetSmallestIntervals _ _); simpl;
      (split; [split; [discriminate | contradiction]|]);
      (split;
       [split;
        [first [intros H; exfalso; apply H; reflexivity
               | intros _; split; [exact En | eexists; reflexivity]]
        | first [intros [_ [v Hv]]; discriminate Hv | intros _; discriminate]]
       | first [intros H; exfalso; apply H; reflexivity
               | intros _; split; reflexivity]]).
Qed.

(** X19.  The value [GetUncertainties] returns, the three outputs and the
    errors it reports depend on the fitter only through the interval policy:
    histograms, fit functions and the posterior cached by an earlier call
    play no part. *)
Theorem GetUncertainties_reads_policy_only (self1 self2 : BCEfficiencyFitter)
    (n k : Z) (p : float) :
  fDataPointType self1 = fDataPointType self2 ->
  fst (fst (GetUncertainties self1 n k p))
  = fst (fst (GetUncertainties self2 n k p))
  /\ snd (GetUncertainties self1 n k p) = snd (GetUncertainties self2 n k p).
Proof. exact (GetUncertainties_policy_only self1 self2 n k p). Qed.

(** X20.  After a call with [n] other than 0 the fitter caches the
    posterior of this call, a histogram of 1000 bins, whatever it cached
    before, and nothing else in the fitter has changed; a second call with
    the same arguments returns the same and leaves the fitter as it is. *)
Theorem GetUncertainties_caches (self : BCEfficiencyFitter) (n k : Z)
    (p : float) :
  n <> 0 ->
  snd (fst (GetUncertainties self n k p))
  = with_fHistogramBinomial self (binomial_histogram n k)
  /\ length (binomial_histogram n k) = 1000%nat
  /\ GetUncertainties (snd (fst (GetUncertainties self n k p))) n k p
     = GetUncertainties self n k p.
Proof.
  intros Hn.
  assert (Hstate : snd (fst (GetUncertainties self n k p))
                   = with_fHistogramBinomial self (binomial_histogram n k)).
  { unfold GetUncertainties. destruct (n =? 0) eqn:En; [lia|].
    destruct (fDataPointType self); try reflexivity.
    destruct (GetSmallestIntervals _ _); reflexivity. }
  split; [exact Hstate|]. split.
  - unfold binomial_histogram, counter_values.
    now rewrite !length_map, length_seq.
  - rewrite Hstate. unfold GetUncertainties. destruct (n =? 0) eqn:En; [lia|].
    unfold with_fHistogramBinomial. fitter_fields.
    destruct (fDataPointType self); reflexivity.
Qed.

(** X21.  The posterior is the binomial evaluated at 1000 efficiencies
    that all lie strictly between 0 and 1, each scaled by the same factor:
    [ApproxBinomial] is never asked for the efficiency 0 or 1. *)
Theorem posterior_inside_unit_interval (n k : Z) :
  exists scale : float,
    forall (i : nat) (content : float),
      binomial_histogram n k !! i = Some content ->
      (i < 1000)%nat
      /\ (0 <? GetBinCenter (S i))%float = true
      /\ (GetBinCenter (S i) <? 1)%float = true
      /\ content = (scale * ApproxBinomial n k (GetBinCenter (S i)))%float.
Proof.
  unfold binomial_histogram.
  set (filled := map (fun i => ApproxBinomial n k (GetBinCenter i))
                   (counter_values 1 1000)).
  exists (1 / fold_left PrimFloat.add filled 0)%float.
  intros i content H.
  apply list_lookup_fmap_Some in H as (y & -> & Hy).
  apply list_lookup_fmap_Some in Hy as (j & -> & Hj).
  apply lookup_seq in Hj as [-> Hlt].
  split; [exact Hlt|].
  pose proof centers_inside as Hall. rewrite forallb_forall in Hall.
  specialize (Hall (S i) (proj2 (In_counter_values 1 1000 (S i))
                            (conj (le_n_S _ _ (Nat.le_0_l i))
                                  (proj1 (Nat.succ_lt_mono _ _) Hlt)))).
  apply andb_true_iff in Hall as [Hlow Hhigh].
  repeat split; assumption.
Qed.

Lemma set_points (hist1 hist2 : TH1D) (center : nat -> float)
    (bins : list nat) (graph : list GraphPoint) (self0 self : BCEfficiencyFitter)
    (reported : list string) :
  fDataPointType self = fDataPointType self0 ->
  exists (self' : BCEfficiencyFitter) (reported' : list string),
    fold_left (set_point hist1 hist2 center) bins (graph, self, reported)
    = (graph
       ++ map (fun i => point_of self0 (center i)
                          (Cxx.int_of_double (GetBinContent hist1 i))
                          (Cxx.int_of_double (GetBinContent hist2 i))) bins,
       self', reported')
    /\ fDataPointType self' = fDataPointType self0.
Proof.
  revert graph self reported.
  induction bins as [|i bins IH]; intros graph self reported Hpolicy; simpl.
  - do 2 eexists. rewrite app_nil_r. split; [reflexivity | exact Hpolicy].
  - pose proof (GetUncertainties_keeps_policy self
                  (Cxx.int_of_double (GetBinContent hist1 i))
                  (Cxx.int_of_double (GetBinContent hist2 i)) level_68) as Hkeep.
    pose proof (GetUncertainties_policy_only self self0
                  (Cxx.int_of_double (GetBinContent hist1 i))
                  (Cxx.int_of_double (GetBinContent hist2 i)) level_68 Hpolicy)
      as [Hsame _].
    unfold point_of at 1. rewrite <- Hsame.
    destruct (GetUncertainties self _ _ level_68)
      as [[[ok estimate] self1] errors]. simpl in Hkeep |- *.
    destruct (IH (graph ++ [mkPoint (center i) (xexp estimate) 0 0
                              (xexp estimate - xmin estimate)%float
                              (xmax estimate - xexp estimate)%float])
                self1 (reported ++ errors))
      as (self' & reported' & Hfold & Hpolicy').
    { now rewrite Hkeep. }
    exists self', reported'. rewrite Hfold, <- app_assoc. auto.
Qed.

Lemma DrawFit_graph_points_aux (self : BCEfficiencyFitter)
    (center : nat -> float) (h1 h2 : TH1D) :
  fHistogram1 self = Some h1 ->
  fHistogram2 self = Some h2 ->
  fFitFunction self <> [] ->
  exists (self' : BCEfficiencyFitter) (reported : list string),
    DrawFit_graph self center
    = (Some (map (fun i => point_of self (center i)
                             (Cxx.int_of_double (GetBinContent h1 i))
                             (Cxx.int_of_double (GetBinContent h2 i)))
               (counter_values 1 (GetNbinsX h1))),
       self', reported).
Proof.
  intros H1 H2 Hf. unfold DrawFit_graph. rewrite H1, H2.
  destruct (fFitFunction self) as [|f fs]; [contradiction|].
  destruct (set_points h1 h2 center (counter_values 1 (GetNbinsX h1)) [] self
              self [] eq_refl) as (self' & reported & -> & _).
  exists self', reported. reflexivity.
Qed.

(** X22.  [DrawFit] builds no graph when a histogram is absent, and then
    reports that the histograms are not defined; it builds none when both
    histograms are there and the fitter has no fit function, and then
    reports that the fit function is not defined; in both cases it leaves
    the fitter as it is. *)
Theorem DrawFit_graph_refuses (self : BCEfficiencyFitter)
    (center : nat -> float) :
  (fHistogram1 self = None \/ fHistogram2 self = None ->
   DrawFit_graph self center = (None, self, [DrawMsg.no_histogram]))
  /\ (fHistogram1 self <> None -> fHistogram2 self <> None ->
      fFitFunction self = [] ->
      DrawFit_graph self center = (None, self, [DrawMsg.no_function]))
  /\ DrawMsg.no_histogram <> DrawMsg.no_function.
Proof.
  unfold DrawFit_graph.
  destruct (fHistogram1 self) as [h1|], (fHistogram2 self) as [h2|];
    (split; [|split; [|discriminate]]);
    try (intros; reflexivity); try (intros [H | H]; discriminate);
    try (intros H1 H2; congruence).
  intros _ _ ->. reflexivity.
Qed.

(** X23.  With both histograms and a fit function, the graph of [DrawFit]
    has one point per bin, in bin order: the point of bin [i] sits at the
    center of the bin, has no horizontal errors, and has the central value
    and the distances to the two ends of the interval that
    [GetUncertainties] gives at the level 0.68 for the contents of the bin
    under the policy of the fitter, whether that call returned [true] or
    not. *)
Theorem DrawFit_graph_points (self : BCEfficiencyFitter) (center : nat -> float)
    (h1 h2 : TH1D) :
  fHistogram1 self = Some h1 ->
  fHistogram2 self = Some h2 ->
  fFitFunction self <> [] ->
  exists (self' : BCEfficiencyFitter) (reported : list string),
    DrawFit_graph self center
    = (Some (map (fun i => point_of self (center i)
                             (Cxx.int_of_double (GetBinContent h1 i))
                             (Cxx.int_of_double (GetBinContent h2 i)))
               (counter_values 1 (GetNbinsX h1))),
       self', reported)
    /\ fDataPointType self' = fDataPointType self.
Proof.
  intros H1 H2 Hf. unfold DrawFit_graph. rewrite H1, H2.
  destruct (fFitFunction self) as [|f fs]; [contradiction|].
  destruct (set_points h1 h2 center (counter_values 1 (GetNbinsX h1)) [] self
              self [] eq_refl) as (self' & reported & -> & Hpolicy).
  exists self', reported. simpl. auto.
Qed.

(** X24.  A bin without trials is drawn at the efficiency 0 with all four
    errors 0, under every policy. *)
Theorem DrawFit_graph_empty_bin (self : BCEfficiencyFitter)
    (center : nat -> float) (h1 h2 : TH1D) (graph : list GraphPoint)
    (self' : BCEfficiencyFitter) (reported : list string) (i : nat) :
  fHistogram1 self = Some h1 ->
  fHistogram2 self = Some h2 ->
  DrawFit_graph self center = (Some graph, self', reported) ->
  (i < GetNbinsX h1)%nat ->
  Cxx.int_of_double (GetBinContent h1 (S i)) = 0 ->
  graph !! i = Some (mkPoint (center (S i)) 0 0 0 0 0).
Proof.
  intros H1 H2 Hgraph Hi Hn.
  assert (Hf : fFitFunction self <> []).
  { intros Hnil. unfold DrawFit_graph in Hgraph.
    rewrite H1, H2, Hnil in Hgraph. discriminate. }
  destruct (DrawFit_graph_points_aux self center h1 h2 H1 H2 Hf)
    as (self1 & reported1 & Hpoints).
  rewrite Hpoints in Hgraph. injection Hgraph as <- _ _.
  rewrite list_lookup_fmap. unfold counter_values.
  rewrite (lookup_seq_lt _ _ _ Hi). simpl. unfold point_of.
  rewrite Hn. reflexivity.
Qed.

End IntervalFacts.

Lemma GetUncertainties_reads_policy_only_witness :
  fst (fst (@GetUncertainties Examples.plain_math Examples.no_interval_stats
              Cases.bare_fitter 10 5 0.5%float))
  = fst (fst (@GetUncertainties Examples.plain_math Examples.no_interval_stats
                Examples.half_efficiency_fitter 10 5 0.5%float))
  /\ snd (@GetUncertainties Examples.plain_math Examples.no_interval_stats
            Cases.bare_fitter 10 5 0.5%float)
     = snd (@GetUncertainties Examples.plain_math Examples.no_interval_stats
              Examples.half_efficiency_fitter 10 5 0.5%float).
Proof.
  exact (@GetUncertainties_reads_policy_only Examples.plain_math
           Examples.no_interval_stats Cases.bare_fitter
           Examples.half_efficiency_fitter 10 5 0.5%float eq_refl).
Defined.

Lemma GetUncertainties_caches_witness :
  length (@binomial_histogram Examples.plain_math 10 5) = 1000%nat.
Proof.
  exact (proj1 (proj2 (@GetUncertainties_caches Examples.plain_math
                         Examples.no_interval_stats Cases.bare_fitter 10 5
                         0.5%float ltac:(discriminate)))).
Defined.

Lemma DrawFit_graph_refuses_witness :
  @DrawFit_graph Examples.plain_math Examples.no_interval_stats
    Cases.functionless_fitter (fun _ => 1%float)
  = (None, Cases.functionless_fitter, [DrawMsg.no_function]).
Proof.
  exact (proj1 (proj2 (@DrawFit_graph_refuses Examples.plain_math
                         Examples.no_interval_stats Cases.functionless_fitter
                         (fun _ => 1%float)))
           ltac:(discriminate) ltac:(discriminate) eq_refl).
Defined.

Lemma DrawFit_graph_points_witness :
  exists (self' : BCEfficiencyFitter) (reported : list string),
    @DrawFit_graph Examples.plain_math Examples.no_interval_stats
      Cases.linear_fitter (fun _ => 1%float)
    = (Some [@point_of Examples.plain_math Examples.no_interval_stats
               Cases.linear_fitter 1%float 10 5],
       self', reported)
    /\ fDataPointType self' = kDataPointSmallestInterval.
Proof.
  exact (@DrawFit_graph_points Examples.plain_math Examples.no_interval_stats
           Cases.linear_fitter (fun _ => 1%float) Examples.total_10_10
           Examples.passed_5_5 eq_refl eq_refl ltac:(discriminate)).
Defined.

Lemma DrawFit_graph_empty_bin_witness :
  [mkPoint 1 0 0 0 0 0] !! 0%nat = Some (mkPoint 1 0 0 0 0 0).
Proof.
  exact (@DrawFit_graph_empty_bin Examples.plain_math
           Examples.no_interval_stats Cases.empty_fitter (fun _ => 1%float)
           Cases.empty_histogram Cases.empty_histogram
           [mkPoint 1 0 0 0 0 0] Cases.empty_fitter [] 0
           eq_refl eq_refl eq_refl (le_n 1) eq_refl).
Defined.
